(** * Recursive state estimation: the teaching scripts of
      Kalman-Filter-Emulation-Using-Python, embedded in Rocq.

    Every script of the repository is one top-level loop

      for n, z in enumerate(measurements, start=1): <predict> ; <update>

    over module-level variables and result lists.  The embedding keeps that
    shape: a [store] record per script holds the variables the loop assigns
    and the lists it appends to, the loop body is a function
    [nat -> num -> store -> result store], and the loop itself is
    [for_enumerate].  The hard-coded constants of a script (gains, time step,
    initial state, measurement list) are the arguments of its [script].

    Numbers.  The scripts compute with Python [float]s (IEEE binary64) and with
    small [int]s that are converted to [float] as soon as they meet one.  The
    bodies below are written once, over an interface [Arith] of the operations
    the scripts use, and are read at two instances:
      - [Binary64]: Rocq's primitive floats, which are IEEE binary64 with
        round-to-nearest-even, i.e. the arithmetic Python performs;
      - [Exact]: the rationals [Q], the arithmetic of the equations the
        scripts quote in their docstrings.
    Python's true division raises [ZeroDivisionError] on a zero divisor at
    both types; [div] returns [Raise ZeroDivisionError] there.

    An [int] operand is represented by the number of the same value.  Where a
    script still computes on [int]s alone (the first prediction of Ex-2,
    30000 + 5 * 40; the first sum 225 + 25 of Ch-4 Ex-1) Python is exact, and
    so is binary64 as long as the values stay below 2^53, which the scripts'
    constants do.

    [delta_t ** 2] is modelled by the product [delta_t * delta_t].  That is
    Python's value at the scripts' [int] time step 5 and in exact arithmetic.
    On a [float] operand Python's [**] is the C library's [pow]: it raises
    OverflowError when the square overflows and need not return the rounded
    product; neither is modelled, and the only exception of the embedding is
    [ZeroDivisionError].

    Statements about particular numbers are evaluated at both instances.
    Statements about all inputs are proved at [Exact]; at [Binary64] they are
    evaluated on the scripts' own data, and on further inputs where rounding
    or overflow changes the answer.

    Outside the embedding: the "true value" bookkeeping, printing and
    plotting of the scripts.  None of it assigns a filter variable.  The
    true-value lines of Ex-3 and Ex-4 compute [t_accel ** 2], which can raise
    OverflowError for a huge [float] time step before the prediction is
    made; such runs are not covered. *)

From Stdlib Require Import ZArith QArith Qabs Lqa Lia List Bool.
From Stdlib Require Import Floats.PrimFloat Floats.FloatOps Floats.SpecFloat.
From Stdlib Require Import Uint63.
Import ListNotations.

Set Implicit Arguments.
Set Warnings "-inexact-float".

(** ** Results of fallible computations *)

Inductive exn : Type :=
| ZeroDivisionError.

Inductive result (A : Type) : Type :=
| Ok (a : A)
| Raise (e : exn).

Arguments Ok {A} a.
Arguments Raise {A} e.

Definition bind {A B : Type} (r : result A) (k : A -> result B) : result B :=
  match r with
  | Ok a => k a
  | Raise e => Raise e
  end.

Notation "'let*' x ':=' r 'in' k" := (bind r (fun x => k))
  (at level 10, x name, r at level 100, k at level 200).
Notation "'let*' ' p ':=' r 'in' k" := (bind r (fun p => k))
  (at level 10, p pattern, r at level 100, k at level 200).

(** ** The arithmetic the scripts use *)

Class Arith (num : Type) : Type := {
  add : num -> num -> num;
  sub : num -> num -> num;
  mul : num -> num -> num;
  quot : num -> num -> num;     (* x / y for a divisor that is not zero *)
  is_zero : num -> bool;        (* the test behind ZeroDivisionError *)
  of_int : Z -> num;            (* an int operand meeting a float *)
  half : num                    (* the literal 0.5 *)
}.

Section Operations.
Context {num : Type} {A : Arith num}.

(** Python's [x / y]. *)
Definition div (x y : num) : result num :=
  if is_zero y then Raise ZeroDivisionError else Ok (quot x y).

(** Python's [x ** 2]. *)
Definition pow2 (x : num) : num := mul x x.
End Operations.

(** Exact rationals. *)
#[export] Instance Exact : Arith Q := {|
  add := Qplus;
  sub := Qminus;
  mul := Qmult;
  quot := Qdiv;
  is_zero := fun q => Qeq_bool q 0;
  of_int := inject_Z;
  half := 1 # 2
|}.

(** IEEE binary64.  [x == 0.0] holds of both zeros and of nothing else. *)
Definition float_of_int (i : Z) : float :=
  match i with
  | Z0 => PrimFloat.zero
  | Zpos _ => PrimFloat.of_uint63 (Uint63.of_Z i)
  | Zneg p => PrimFloat.opp (PrimFloat.of_uint63 (Uint63.of_Z (Zpos p)))
  end.

#[export] Instance Binary64 : Arith float := {|
  add := PrimFloat.add;
  sub := PrimFloat.sub;
  mul := PrimFloat.mul;
  quot := PrimFloat.div;
  is_zero := fun x => PrimFloat.eqb x PrimFloat.zero;
  of_int := float_of_int;
  half := 0.5%float
|}.

(** The rational a finite binary64 number denotes. *)
Definition SF2Q (f : spec_float) : option Q :=
  match f with
  | S754_zero _ => Some 0
  | S754_finite s m e =>
      Some ((if s then - inject_Z (Zpos m) else inject_Z (Zpos m)) * Qpower 2 e)
  | S754_infinity _ | S754_nan => None
  end.

Definition float2Q (x : float) : option Q := SF2Q (Prim2SF x).

(** [shows2 x d]: the binary64 number [x] lies within half a unit of the
    second decimal of [d], so the scripts' [:.2f] columns print it as [d]. *)
Definition shows2 (x : float) (d : Q) : bool :=
  match float2Q x with
  | Some q =>
      match Qabs (q - d) ?= 1 # 200 with
      | Lt => true
      | _ => false
      end
  | None => false
  end.

(** ** The loop [for n, z in enumerate(measurements, start=...)] *)

Section Loop.
Context {num store : Type}.
Variable body : nat -> num -> store -> result store.

Fixpoint for_enumerate (n : nat) (measurements : list num) (s : store)
  : result store :=
  match measurements with
  | [] => Ok s
  | z :: rest =>
      let* s' := body n z s in
      for_enumerate (S n) rest s'
  end.

End Loop.

(** ** Ch-3 Ex-1: weighing the gold bar (static model, gain 1/n) *)

Module Ch3_Ex1.
Section Script.
Context {num : Type} {A : Arith num}.

Record store : Type := {
  x_est : num;
  estimates : list num;
  predictions : list num
}.

Definition init (x0 : num) : store :=
  {| x_est := x0; estimates := []; predictions := [] |}.

Definition body (n : nat) (z : num) (s : store) : result store :=
  let x_pred := x_est s in
  let predictions' := predictions s ++ [x_pred] in
  let* alpha := div (of_int 1) (of_int (Z.of_nat n)) in
  let x_est' := add x_pred (mul alpha (sub z x_pred)) in
  Ok {| x_est := x_est';
        estimates := estimates s ++ [x_est'];
        predictions := predictions' |}.

Definition script (x0 : num) (measurements : list num) : result store :=
  for_enumerate body 1 measurements (init x0).
End Script.
End Ch3_Ex1.

(** ** Ch-3 Ex-2 and Ex-3: the alpha-beta filter (constant velocity model)

    Ex-3 runs the loop of Ex-2 on other constants. *)

Module Ch3_Ex2.
Section Script.
Context {num : Type} {A : Arith num}.

Record store : Type := {
  x_est : num;
  vx_est : num;
  x_estimates : list num;
  vx_estimates : list num;
  x_predictions : list num;
  vx_predictions : list num
}.

Definition init (x0 v0 : num) : store :=
  {| x_est := x0; vx_est := v0;
     x_estimates := []; vx_estimates := [];
     x_predictions := []; vx_predictions := [] |}.

(** [residual = z - x_pred] *)
Definition residual (z x_pred : num) : num := sub z x_pred.

Variables alpha beta delta_t : num.

Definition body (n : nat) (z : num) (s : store) : result store :=
  let x_pred := add (x_est s) (mul delta_t (vx_est s)) in
  let vx_pred := vx_est s in
  let x_predictions' := x_predictions s ++ [x_pred] in
  let vx_predictions' := vx_predictions s ++ [vx_pred] in
  let residual := residual z x_pred in
  let x_est' := add x_pred (mul alpha residual) in
  let* correction := div (mul beta residual) delta_t in
  let vx_est' := add vx_pred correction in
  Ok {| x_est := x_est'; vx_est := vx_est';
        x_estimates := x_estimates s ++ [x_est'];
        vx_estimates := vx_estimates s ++ [vx_est'];
        x_predictions := x_predictions';
        vx_predictions := vx_predictions' |}.

Definition script (x0 v0 : num) (measurements : list num) : result store :=
  for_enumerate body 1 measurements (init x0 v0).
End Script.
End Ch3_Ex2.

(** ** Ch-3 Ex-4: the alpha-beta-gamma filter (constant acceleration model) *)

Module Ch3_Ex4.
Section Script.
Context {num : Type} {A : Arith num}.

Record store : Type := {
  x_est : num;
  vx_est : num;
  ax_est : num;
  x_estimates : list num;
  vx_estimates : list num;
  ax_estimates : list num;
  x_predictions : list num;
  vx_predictions : list num;
  ax_predictions : list num
}.

Definition init (x0 v0 a0 : num) : store :=
  {| x_est := x0; vx_est := v0; ax_est := a0;
     x_estimates := []; vx_estimates := []; ax_estimates := [];
     x_predictions := []; vx_predictions := []; ax_predictions := [] |}.

Variables alpha beta gamma delta_t : num.

(** The prediction step: [x_pred], [vx_pred], [ax_pred] from the current
    [x_est], [vx_est], [ax_est]. *)
Definition predict (x v a : num) : num * num * num :=
  (add (add x (mul delta_t v)) (mul (mul half a) (pow2 delta_t)),
   add v (mul a delta_t),
   a).

Definition body (n : nat) (z : num) (s : store) : result store :=
  let '(x_pred, vx_pred, ax_pred) := predict (x_est s) (vx_est s) (ax_est s) in
  let x_predictions' := x_predictions s ++ [x_pred] in
  let vx_predictions' := vx_predictions s ++ [vx_pred] in
  let ax_predictions' := ax_predictions s ++ [ax_pred] in
  let residual := sub z x_pred in
  let x_est' := add x_pred (mul alpha residual) in
  let* rate := div residual delta_t in
  let vx_est' := add vx_pred (mul beta rate) in
  let* curvature := div residual (mul half (pow2 delta_t)) in
  let ax_est' := add ax_pred (mul gamma curvature) in
  Ok {| x_est := x_est'; vx_est := vx_est'; ax_est := ax_est';
        x_estimates := x_estimates s ++ [x_est'];
        vx_estimates := vx_estimates s ++ [vx_est'];
        ax_estimates := ax_estimates s ++ [ax_est'];
        x_predictions := x_predictions';
        vx_predictions := vx_predictions';
        ax_predictions := ax_predictions' |}.

Definition script (x0 v0 a0 : num) (measurements : list num) : result store :=
  for_enumerate body 1 measurements (init x0 v0 a0).
End Script.
End Ch3_Ex4.

(** ** The one-dimensional Kalman filter of Ch-4 and Ch-5

    The four covariance scripts share their variables and their update
    step; they differ in the variance prediction only. *)

Module Kalman.
Section Script.
Context {num : Type} {A : Arith num}.

Record store : Type := {
  x_est : num;
  p_est : num;
  estimates : list num;
  variances : list num;
  kalman_gains : list num;
  predictions : list num
}.

Definition init (x0 p0 : num) : store :=
  {| x_est := x0; p_est := p0;
     estimates := []; variances := []; kalman_gains := []; predictions := [] |}.

(** Step 2 of the scripts, from the predicted pair:
      K = p_pred / (p_pred + r)
      x_est = x_pred + K * (z - x_pred)
      p_est = (1 - K) * p_pred
    It returns [(K, x_est, p_est)]. *)
Definition update (r z x_pred p_pred : num) : result (num * num * num) :=
  let* K := div p_pred (add p_pred r) in
  let x_est' := add x_pred (mul K (sub z x_pred)) in
  let p_est' := mul (sub (of_int 1) K) p_pred in
  Ok (K, x_est', p_est').

(** One iteration, given the variance prediction [p_predict] of the script.
    Ch-4 Ex-1 and Ch-5 Ex-1 append the prediction before they compute the
    gain, Ch-5 Ex-2 and Ex-3 after the update with the other three lists; the
    lists a completed iteration leaves are the same. *)
Definition iteration (p_predict : num -> num) (r : num)
    (z : num) (s : store) : result store :=
  let x_pred := x_est s in
  let p_pred := p_predict (p_est s) in
  let predictions' := predictions s ++ [x_pred] in
  let* '(K, x_est', p_est') := update r z x_pred p_pred in
  Ok {| x_est := x_est'; p_est := p_est';
        estimates := estimates s ++ [x_est'];
        variances := variances s ++ [p_est'];
        kalman_gains := kalman_gains s ++ [K];
        predictions := predictions' |}.
End Script.
End Kalman.

(** Ch-4 Ex-1: the building height, [p_pred = p_est]. *)
Module Ch4_Ex1.
Section Script.
Context {num : Type} {A : Arith num}.
Variable measurement_variance : num.

Definition body (n : nat) (z : num) (s : Kalman.store (num := num))
  : result Kalman.store :=
  Kalman.iteration (fun p_est => p_est) measurement_variance z s.

Definition script (initial_estimate initial_variance : num)
    (measurements : list num) : result Kalman.store :=
  for_enumerate body 1 measurements
    (Kalman.init initial_estimate initial_variance).
End Script.
End Ch4_Ex1.

(** Ch-5 Ex-1, Ex-2 and Ex-3: the liquid temperature,
    [p_pred = p_est + process_variance].  Ex-2 and Ex-3 write the loop as
    [for z in measurements] and name the variances [q] and [r]. *)
Module Ch5_Ex1.
Section Script.
Context {num : Type} {A : Arith num}.
Variables process_variance measurement_variance : num.

Definition body (n : nat) (z : num) (s : Kalman.store (num := num))
  : result Kalman.store :=
  Kalman.iteration (fun p_est => add p_est process_variance)
    measurement_variance z s.

Definition script (x0 p0 : num) (measurements : list num)
  : result Kalman.store :=
  for_enumerate body 1 measurements (Kalman.init x0 p0).
End Script.
End Ch5_Ex1.

(** ** The scripts as written: each loop on its own constants, at binary64 *)

Module AsWritten.
Open Scope float_scope.

Definition Ch3_Ex1 : result Ch3_Ex1.store :=
  Ch3_Ex1.script 1000.0
    [996; 994; 1021; 1000; 1002; 1010; 983; 971; 993; 1023].

Definition Ch3_Ex2 : result Ch3_Ex2.store :=
  Ch3_Ex2.script 0.2 0.1 5 30000 40
    [30171; 30353; 30756; 30799; 31018; 31278; 31276; 31379; 31748; 32175].

Definition Ch3_Ex3 : result Ch3_Ex2.store :=
  Ch3_Ex2.script 0.2 0.1 5 30000 50
    [30221; 30453; 30906; 30999; 31368; 31978; 32526; 33379; 34698; 36275].

Definition Ch3_Ex4 : result Ch3_Ex4.store :=
  Ch3_Ex4.script 0.5 0.4 0.1 5 30000 50 0
    [30221; 30453; 30906; 30999; 31368; 31978; 32526; 33379; 34698; 36275].

(** [initial_variance = 15 ** 2], [measurement_variance = 5 ** 2] *)
Definition Ch4_Ex1 : result Kalman.store :=
  Ch4_Ex1.script (pow2 5) 60.0 (pow2 15)
    [49.03; 48.44; 55.21; 49.98; 50.6; 52.61; 45.87; 42.64; 48.26; 55.84].

(** [p_est = 100**2], [measurement_variance = 0.1**2] *)
Definition Ch5_Ex1 : result Kalman.store :=
  Ch5_Ex1.script 0.0001 (pow2 0.1) 60.0 (pow2 100)
    [49.986; 49.963; 50.09; 50.001; 50.018;
     50.05; 49.938; 49.858; 49.965; 50.114].

Definition heating_liquid : list float :=
  [50.486; 50.963; 51.597; 52.001; 52.518;
   53.05; 53.438; 53.858; 54.465; 55.114].

(** Ch-5 Ex-2 (example 7 of the book): [q = 0.0001], [r = 0.01] *)
Definition Ch5_Ex2 : result Kalman.store :=
  Ch5_Ex1.script 0.0001 0.01 10.0 10000.0 heating_liquid.

(** Ch-5 Ex-3 (example 8 of the book): [q = 0.15] *)
Definition Ch5_Ex3 : result Kalman.store :=
  Ch5_Ex1.script 0.15 0.01 10.0 10000.0 heating_liquid.
End AsWritten.


(** ** Vocabulary of the statements *)





(** Checks on recorded binary64 lists: a gain in [0, 1]; variances that are
    nonnegative and at most the previous one plus [q]; a list in which no
    entry exceeds the one before it. *)
Definition float_in_unit (K : float) : bool :=
  PrimFloat.leb 0 K && PrimFloat.leb K 1.

Fixpoint float_variances_ok (q p_prev : float) (variances : list float)
  : bool :=
  match variances with
  | [] => true
  | p :: rest =>
      PrimFloat.leb 0 p && PrimFloat.leb p (PrimFloat.add p_prev q)
      && float_variances_ok q p rest
  end.

Fixpoint float_nonincreasing (l : list float) : bool :=
  match l with
  | a :: (b :: _) as rest => PrimFloat.leb b a && float_nonincreasing rest
  | _ => true
  end.

(** ** Loop invariants, in exact arithmetic *)


(** What a covariance loop with process variance [q] and measurement
    variance [r] has established after consuming [ms] from the initial
    variance [p0]: the variance entering step k+1 is entry k of
    [p0 :: variances], and the gain and the variance that step records are
    computed from it. *)
Record covariance_inv (q r p0 : Q) (ms : list Q)
    (s : Kalman.store (num := Q)) : Prop := {
  ci_variances : length (Kalman.variances s) = length ms;
  ci_gains : length (Kalman.kalman_gains s) = length ms;
  ci_p_est : Kalman.p_est s = nth (length ms) (p0 :: Kalman.variances s) 0;
  ci_nonneg : forall k, (k <= length ms)%nat ->
              0 <= nth k (p0 :: Kalman.variances s) 0;
  ci_step : forall k, (k < length ms)%nat ->
            let p_pred := nth k (p0 :: Kalman.variances s) 0 + q in
            nth k (Kalman.kalman_gains s) 0 == p_pred / (p_pred + r) /\
            nth k (Kalman.variances s) 0
              == (1 - p_pred / (p_pred + r)) * p_pred
}.

(** ** Around the loops: time axis, table rows, true ranges *)

(** [time_steps = list(range(1, len(measurements) + 1))], in every script. *)
Definition time_steps {num : Type} (measurements : list num) : list nat :=
  seq 1 (length measurements).

(** [l[i]] for an index [i >= 0]; [None] stands for Python's IndexError. *)
Definition item {X : Type} (l : list X) (i : nat) : option X := nth_error l i.

(** The lookups of one pass of a table loop: [time_steps[i]] and [c[i]] for
    every column [c] the script formats, left to right. *)
Fixpoint row_items {num : Type} (columns : list (list num)) (i : nat)
  : option (list num) :=
  match columns with
  | [] => Some []
  | c :: rest =>
      match item c i with
      | None => None
      | Some x =>
          match row_items rest i with
          | None => None
          | Some xs => Some (x :: xs)
          end
      end
  end.

Definition table_row {num : Type} (measurements : list num)
    (columns : list (list num)) (i : nat) : option (nat * list num) :=
  match item (time_steps measurements) i with
  | None => None
  | Some t =>
      match row_items columns i with
      | None => None
      | Some xs => Some (t, xs)
      end
  end.

(** The table loops, [for i in range(len(measurements)): print(...)]: the
    rows of looked-up values they format, or [None] as soon as a lookup
    fails.  The formatting itself is not modelled. *)
Fixpoint table_from {num : Type} (measurements : list num)
    (columns : list (list num)) (i count : nat)
  : option (list (nat * list num)) :=
  match count with
  | O => Some []
  | S count' =>
      match table_row measurements columns i with
      | None => None
      | Some row =>
          match table_from measurements columns (S i) count' with
          | None => None
          | Some rows => Some (row :: rows)
          end
      end
  end.

Definition table_rows {num : Type} (measurements : list num)
    (columns : list (list num)) : option (list (nat * list num)) :=
  table_from measurements columns 0 (length measurements).

(** Ch-3 Ex-2, inside the loop:
    [true_range = x0_true + v_true * n * delta_t]. *)
Definition Ch3_Ex2_true_range {num : Type} {A : Arith num}
    (x0_true v_true delta_t : num) (n : nat) : num :=
  add x0_true (mul (mul v_true (of_int (Z.of_nat n))) delta_t).

(** The list [true_ranges] that loop has built after [count] iterations. *)
Definition Ch3_Ex2_true_ranges {num : Type} {A : Arith num}
    (x0_true v_true delta_t : num) (count : nat) : list num :=
  map (Ch3_Ex2_true_range x0_true v_true delta_t) (seq 1 count).


(** A covariance run resumed: the store after [s1] when a second run,
    started from the state [s1] ended in, has ended in [s2]. *)
Definition Kalman_resumed {num : Type} (s1 s2 : Kalman.store (num := num))
  : Kalman.store :=
  {| Kalman.x_est := Kalman.x_est s2;
     Kalman.p_est := Kalman.p_est s2;
     Kalman.estimates := Kalman.estimates s1 ++ Kalman.estimates s2;
     Kalman.variances := Kalman.variances s1 ++ Kalman.variances s2;
     Kalman.kalman_gains := Kalman.kalman_gains s1 ++ Kalman.kalman_gains s2;
     Kalman.predictions := Kalman.predictions s1 ++ Kalman.predictions s2 |}.

(** ** A run started on stores that already hold entries *)




(** ** Binary64 estimates against exact means *)




(** * Properties *)

(** ** The loop *)

Section LoopFacts.
Context {num store : Type}.
Variable body : nat -> num -> store -> result store.

Lemma for_enumerate_app (l1 l2 : list num) (n : nat) (s : store) :
  for_enumerate body n (l1 ++ l2) s =
  let* s' := for_enumerate body n l1 s in
  for_enumerate body (length l1 + n) l2 s'.
Proof.
  revert n s; induction l1 as [|z l1 IH]; intros n s; simpl; [reflexivity|].
  destruct (body n z s) as [s'|e]; simpl; [|reflexivity].
  rewrite IH. now rewrite Nat.add_succ_r.
Qed.

End LoopFacts.

(** ** Lists of rationals *)


Lemma inject_Z_succ (n : nat) :
  inject_Z (Z.of_nat (S n)) == inject_Z (Z.of_nat n) + 1.
Proof.
  rewrite Nat2Z.inj_succ. unfold Z.succ. rewrite inject_Z_plus. reflexivity.
Qed.

Lemma inject_Z_nat_nonneg (n : nat) : 0 <= inject_Z (Z.of_nat n).
Proof.
  change 0 with (inject_Z 0). rewrite <- Zle_Qle. lia.
Qed.

Lemma Exact_is_zero_false (q : Q) : ~ q == 0 -> Qeq_bool q 0 = false.
Proof.
  intro H. destruct (Qeq_bool q 0) eqn:E; [|reflexivity].
  apply Qeq_bool_eq in E. contradiction.
Qed.

Lemma Exact_div (x y : Q) : ~ y == 0 -> div x y = Ok (x / y).
Proof.
  intro H. unfold div. simpl. now rewrite Exact_is_zero_false.
Qed.

(** ** C7: no measurement, no step *)

(** C7.  On an empty measurement sequence every script's loop returns
    normally with all its result lists empty and its state variables still
    holding the initial values: this holds for the static, the constant
    velocity and the constant acceleration loops and for both covariance
    loops, in any arithmetic. *)
Theorem empty_measurements_empty_trajectory
    (num : Type) (A : Arith num)
    (alpha beta gamma delta_t q r x0 v0 a0 p0 : num) :
  Ch3_Ex1.script x0 [] =
    Ok {| Ch3_Ex1.x_est := x0;
          Ch3_Ex1.estimates := []; Ch3_Ex1.predictions := [] |} /\
  Ch3_Ex2.script alpha beta delta_t x0 v0 [] =
    Ok {| Ch3_Ex2.x_est := x0; Ch3_Ex2.vx_est := v0;
          Ch3_Ex2.x_estimates := []; Ch3_Ex2.vx_estimates := [];
          Ch3_Ex2.x_predictions := []; Ch3_Ex2.vx_predictions := [] |} /\
  Ch3_Ex4.script alpha beta gamma delta_t x0 v0 a0 [] =
    Ok {| Ch3_Ex4.x_est := x0; Ch3_Ex4.vx_est := v0; Ch3_Ex4.ax_est := a0;
          Ch3_Ex4.x_estimates := []; Ch3_Ex4.vx_estimates := [];
          Ch3_Ex4.ax_estimates := [];
          Ch3_Ex4.x_predictions := []; Ch3_Ex4.vx_predictions := [];
          Ch3_Ex4.ax_predictions := [] |} /\
  Ch4_Ex1.script r x0 p0 [] =
    Ok {| Kalman.x_est := x0; Kalman.p_est := p0;
          Kalman.estimates := []; Kalman.variances := [];
          Kalman.kalman_gains := []; Kalman.predictions := [] |} /\
  Ch5_Ex1.script q r x0 p0 [] =
    Ok {| Kalman.x_est := x0; Kalman.p_est := p0;
          Kalman.estimates := []; Kalman.variances := [];
          Kalman.kalman_gains := []; Kalman.predictions := [] |}.
Proof.
  repeat split.
Qed.

(** ** C6: a zero time step *)

(** C6, refuted as stated: nothing validates the time step, so with a zero
    time step and no measurement the constant velocity loop and the constant
    acceleration loop return normally, with their empty result lists. *)
Lemma zero_delta_t_empty_run_returns :
  is_zero 0%float = true /\
  (exists s : Ch3_Ex2.store,
      Ch3_Ex2.script 0.2%float 0.1%float 0%float 30000%float 40%float []
        = Ok s /\
      Ch3_Ex2.x_estimates s = [] /\ Ch3_Ex2.x_predictions s = []) /\
  (exists s : Ch3_Ex4.store,
      Ch3_Ex4.script 0.5%float 0.4%float 0.1%float 0%float
        30000%float 50%float 0%float [] = Ok s /\
      Ch3_Ex4.x_estimates s = [] /\ Ch3_Ex4.x_predictions s = []).
Proof.
  split; [reflexivity|].
  split; eexists; (split; [reflexivity|]); split; reflexivity.
Qed.

(** C6, amended.  With a time step that is zero and at least one
    measurement, the constant velocity loop (Ex-2, Ex-3) and the constant
    acceleration loop (Ex-4) stop at the velocity correction of the first
    iteration, the first use of the time step as a divisor, with a
    [ZeroDivisionError]: the run returns no trajectory and no infinity is
    stored.  This holds in any arithmetic, binary64 included. *)
Theorem zero_delta_t_raises
    (num : Type) (A : Arith num)
    (alpha beta gamma delta_t x0 v0 a0 z : num) (rest : list num) :
  is_zero delta_t = true ->
  Ch3_Ex2.script alpha beta delta_t x0 v0 (z :: rest)
    = Raise ZeroDivisionError /\
  Ch3_Ex4.script alpha beta gamma delta_t x0 v0 a0 (z :: rest)
    = Raise ZeroDivisionError.
Proof.
  intros Hz. split.
  - unfold Ch3_Ex2.script. simpl. unfold Ch3_Ex2.body, div.
    now rewrite Hz.
  - unfold Ch3_Ex4.script. simpl. unfold Ch3_Ex4.body, div. simpl.
    now rewrite Hz.
Qed.

Lemma zero_delta_t_raises_witness :
  is_zero 0%float = true /\
  AsWritten.Ch3_Ex2 <> Raise ZeroDivisionError /\
  Ch3_Ex2.script 0.2%float 0.1%float 0%float 30000%float 40%float
    [30171; 30353]%float = Raise ZeroDivisionError /\
  Ch3_Ex4.script 0.2%float 0.1%float 0.1%float 0%float
    30000%float 40%float 0%float [30171; 30353]%float
    = Raise ZeroDivisionError.
Proof.
  split; [reflexivity|]. split; [vm_compute; discriminate|].
  apply (@zero_delta_t_raises float Binary64); reflexivity.
Defined.

(** ** C5: the constant acceleration extrapolation *)


(** ** C1: the first step of the constant velocity example *)

(** The scenario of C1 in exact arithmetic. *)
Lemma first_step_exact :
  exists (s : Ch3_Ex2.store) (x_pred x_est vx_est : Q),
    Ch3_Ex2.script 0.2 0.1 5 30000 40 [30171] = Ok s /\
    Ch3_Ex2.x_predictions s = [x_pred] /\
    Ch3_Ex2.x_estimates s = [x_est] /\
    Ch3_Ex2.vx_estimates s = [vx_est] /\
    x_pred == 30200 /\
    Ch3_Ex2.residual 30171 x_pred == -29 /\
    x_est == 30194.20 /\
    vx_est == 39.42.
Proof.
  eexists; eexists; eexists; eexists.
  split; [vm_compute; reflexivity|].
  repeat split; vm_compute; reflexivity.
Qed.

(** The scenario of C1 in binary64: the first row of the table Ex-2 prints. *)
Lemma first_step_binary64 :
  exists (s : Ch3_Ex2.store) (x_est vx_est : float),
    Ch3_Ex2.script 0.2%float 0.1%float 5%float 30000%float 40%float
      [30171%float] = Ok s /\
    Ch3_Ex2.x_predictions s = [30200%float] /\
    Ch3_Ex2.residual 30171%float 30200%float = (-29)%float /\
    Ch3_Ex2.x_estimates s = [x_est] /\
    Ch3_Ex2.vx_estimates s = [vx_est] /\
    shows2 x_est 30194.20 = true /\
    shows2 vx_est 39.42 = true /\
    shows2 vx_est 37.10 = false.
Proof.
  eexists; eexists; eexists.
  split; [vm_compute; reflexivity|].
  repeat split; vm_compute; reflexivity.
Qed.

(** C1, refuted as stated: the estimated velocity of that step is not 37.10,
    neither in exact arithmetic nor as binary64 prints it. *)
Lemma first_step_velocity_is_not_37_10 :
  (exists (s : Ch3_Ex2.store) (vx_est : Q),
      Ch3_Ex2.script 0.2 0.1 5 30000 40 [30171] = Ok s /\
      Ch3_Ex2.vx_estimates s = [vx_est] /\
      ~ vx_est == 37.10) /\
  (exists (s : Ch3_Ex2.store) (vx_est : float),
      Ch3_Ex2.script 0.2%float 0.1%float 5%float 30000%float 40%float
        [30171%float] = Ok s /\
      Ch3_Ex2.vx_estimates s = [vx_est] /\
      shows2 vx_est 37.10 = false).
Proof.
  split.
  - eexists; eexists. split; [vm_compute; reflexivity|].
    split; [reflexivity|]. vm_compute. discriminate.
  - eexists; eexists. split; [vm_compute; reflexivity|].
    split; reflexivity.
Qed.

(** C1, amended.  Order-1 model, dt = 5, alpha = 0.2, beta = 0.1, initial
    state (30000, 40), measurement 30171 at n = 1: predicted range 30200.00,
    residual -29.00, estimated range 30194.20 and estimated velocity 39.42
    (40 + 0.1 * (-29) / 5), exactly in exact arithmetic and to the two
    printed decimals in binary64. *)
Theorem alpha_beta_first_step :
  (exists (s : Ch3_Ex2.store) (x_pred x_est vx_est : Q),
      Ch3_Ex2.script 0.2 0.1 5 30000 40 [30171] = Ok s /\
      Ch3_Ex2.x_predictions s = [x_pred] /\
      Ch3_Ex2.x_estimates s = [x_est] /\
      Ch3_Ex2.vx_estimates s = [vx_est] /\
      x_pred == 30200 /\
      Ch3_Ex2.residual 30171 x_pred == -29 /\
      x_est == 30194.20 /\
      vx_est == 39.42) /\
  (exists (s : Ch3_Ex2.store) (x_est vx_est : float),
      Ch3_Ex2.script 0.2%float 0.1%float 5%float 30000%float 40%float
        [30171%float] = Ok s /\
      Ch3_Ex2.x_predictions s = [30200%float] /\
      Ch3_Ex2.residual 30171%float 30200%float = (-29)%float /\
      Ch3_Ex2.x_estimates s = [x_est] /\
      Ch3_Ex2.vx_estimates s = [vx_est] /\
      shows2 x_est 30194.20 = true /\
      shows2 vx_est 39.42 = true).
Proof.
  split.
  - exact first_step_exact.
  - destruct first_step_binary64 as (s & x & v & H).
    exists s, x, v. tauto.
Qed.

(** ** The static model with gain 1/n, in exact arithmetic *)

Section HarmonicGain.
Import Ch3_Ex1.


End HarmonicGain.

(** ** C2: the running mean *)



(** ** C9: the first estimate *)



(** ** The covariance scripts in exact arithmetic *)

Section CovarianceGain.
Import Kalman.

Variables q r : Q.
Hypothesis q_nonneg : 0 <= q.
Hypothesis r_pos : 0 < r.

(** The update step on a nonnegative predicted variance. *)
Lemma update_exact (z x_pred p_pred : Q) :
  0 <= p_pred ->
  update r z x_pred p_pred =
  Ok (p_pred / (p_pred + r),
      x_pred + p_pred / (p_pred + r) * (z - x_pred),
      (1 - p_pred / (p_pred + r)) * p_pred).
Proof.
  intros Hp. unfold update. rewrite Exact_div by (simpl; lra). reflexivity.
Qed.

Lemma gain_bounds (p_pred : Q) :
  0 <= p_pred -> 0 <= p_pred / (p_pred + r) <= 1.
Proof.
  intros Hp. split.
  - apply Qle_shift_div_l; lra.
  - apply Qle_shift_div_r; lra.
Qed.

Lemma updated_variance_bounds (p_pred : Q) :
  0 <= p_pred ->
  0 <= (1 - p_pred / (p_pred + r)) * p_pred <= p_pred.
Proof.
  intros Hp. destruct (gain_bounds Hp) as [H0 H1].
  set (K := p_pred / (p_pred + r)) in *. split; nra.
Qed.


(** The variance prediction of a script: [p_est] itself in Ch-4,
    [p_est + process_variance] in Ch-5. *)
Variable p_predict : Q -> Q.
Hypothesis p_predict_adds_q : forall p, p_predict p == p + q.

Let body (n : nat) (z : Q) (s : store (num := Q)) : result store :=
  iteration p_predict r z s.

Lemma covariance_loop (x0 p0 : Q) (ms : list Q) :
  0 <= p0 ->
  exists s, for_enumerate body 1 ms (init x0 p0) = Ok s /\
            covariance_inv q r p0 ms s.
Proof.
  intros Hp0. induction ms as [|z ms IH] using rev_ind.
  - exists (init x0 p0). split; [reflexivity|].
    constructor; simpl; trivial.
    + intros [|k] Hk; [exact Hp0 | inversion Hk].
    + intros k Hk. inversion Hk.
  - destruct IH as (s & Hrun & [Hv Hg Hp Hnn Hstep]).
    rewrite for_enumerate_app, Hrun. simpl.
    assert (Hprev : 0 <= p_est s) by (rewrite Hp; apply Hnn; lia).
    assert (Hpred : 0 <= p_predict (p_est s))
      by (rewrite p_predict_adds_q; lra).
    unfold body at 1, iteration. rewrite (update_exact _ _ Hpred). simpl.
    eexists. split; [reflexivity|].
    assert (Hsame : forall k, (k <= length ms)%nat ->
              nth k (p0 :: variances s ++
                     [(1 - p_predict (p_est s) / (p_predict (p_est s) + r))
                      * p_predict (p_est s)]) 0
              = nth k (p0 :: variances s) 0).
    { intros k Hk. rewrite app_comm_cons, app_nth1; [reflexivity|].
      simpl. lia. }
    constructor; cbn [variances kalman_gains p_est].
    + rewrite !length_app, Hv. reflexivity.
    + rewrite !length_app, Hg. reflexivity.
    + rewrite length_app, Nat.add_1_r. cbn [nth].
      rewrite app_nth2, Hv, Nat.sub_diag by lia. reflexivity.
    + intros k Hk. rewrite length_app, Nat.add_1_r in Hk.
      destruct (Nat.eq_dec k (S (length ms))) as [->|Hne].
      * cbn [nth]. rewrite app_nth2, Hv, Nat.sub_diag by lia. cbn [nth].
        apply (updated_variance_bounds Hpred).
      * rewrite Hsame by lia. apply Hnn. lia.
    + intros k Hk. rewrite length_app, Nat.add_1_r in Hk.
      rewrite Hsame by lia.
      destruct (Nat.eq_dec k (length ms)) as [->|Hne].
      * rewrite <- Hp. cbv zeta. rewrite <- p_predict_adds_q.
        rewrite !app_nth2, Hv, Hg, Nat.sub_diag by lia. cbn [nth].
        split; reflexivity.
      * rewrite !app_nth1 by lia. apply Hstep. lia.
Qed.

End CovarianceGain.

(** The four covariance scripts as written, in binary64: every recorded
    gain lies in [0, 1], every recorded variance is nonnegative and at most
    the previous one plus the process variance, and in Ch-4 Ex-1 (no process
    noise) gains and variances never rise. *)
Lemma covariance_scripts_as_written :
  (exists s : Kalman.store,
      AsWritten.Ch4_Ex1 = Ok s /\
      forallb float_in_unit (Kalman.kalman_gains s) = true /\
      float_variances_ok 0 225 (Kalman.variances s) = true /\
      float_nonincreasing (225%float :: Kalman.variances s) = true /\
      float_nonincreasing (Kalman.kalman_gains s) = true) /\
  (exists s : Kalman.store,
      AsWritten.Ch5_Ex1 = Ok s /\
      forallb float_in_unit (Kalman.kalman_gains s) = true /\
      float_variances_ok 0.0001 10000 (Kalman.variances s) = true) /\
  (exists s : Kalman.store,
      AsWritten.Ch5_Ex2 = Ok s /\
      forallb float_in_unit (Kalman.kalman_gains s) = true /\
      float_variances_ok 0.0001 10000 (Kalman.variances s) = true) /\
  (exists s : Kalman.store,
      AsWritten.Ch5_Ex3 = Ok s /\
      forallb float_in_unit (Kalman.kalman_gains s) = true /\
      float_variances_ok 0.15 10000 (Kalman.variances s) = true).
Proof.
  repeat split; eexists; (split; [vm_compute; reflexivity|]);
    repeat split; vm_compute; reflexivity.
Qed.

(** ** C3: the variance *)




(** ** C4: the gain *)




(** ** C10: without process noise *)




(** * More of the scripts *)

(** ** What one completed iteration leaves, in any arithmetic *)

Section LoopInvariant.
Context {num store : Type}.
Variable body : nat -> num -> store -> result store.
Variable P : nat -> store -> Prop.
Hypothesis body_keeps :
  forall n z s s', P n s -> body n z s = Ok s' -> P (S n) s'.

(** A property every completed iteration carries from one index to the next
    holds when the loop completes. *)
Lemma for_enumerate_invariant (ms : list num) (n : nat) (s s' : store) :
  P n s -> for_enumerate body n ms s = Ok s' -> P (length ms + n) s'.
Proof.
  revert n s; induction ms as [|z ms IH]; intros n s HP Hrun; simpl in *.
  - now inversion Hrun; subst.
  - destruct (body n z s) as [s1|e] eqn:E; simpl in Hrun; [|discriminate].
    rewrite <- Nat.add_succ_r. apply (IH (S n) s1); eauto.
Qed.
End LoopInvariant.

Section Iterations.
Context {num : Type} {A : Arith num}.

Lemma Ch3_Ex1_body_inv (n : nat) (z : num) (s s' : Ch3_Ex1.store) :
  Ch3_Ex1.body n z s = Ok s' ->
  Ch3_Ex1.estimates s' = Ch3_Ex1.estimates s ++ [Ch3_Ex1.x_est s'] /\
  Ch3_Ex1.predictions s' = Ch3_Ex1.predictions s ++ [Ch3_Ex1.x_est s].
Proof.
  unfold Ch3_Ex1.body, div.
  destruct (is_zero (of_int (Z.of_nat n))); simpl; [discriminate|].
  intros H; inversion H; subst; simpl. split; reflexivity.
Qed.

Lemma Ch3_Ex2_body_inv (alpha beta delta_t : num) (n : nat) (z : num)
    (s s' : Ch3_Ex2.store) :
  Ch3_Ex2.body alpha beta delta_t n z s = Ok s' ->
  Ch3_Ex2.x_estimates s' = Ch3_Ex2.x_estimates s ++ [Ch3_Ex2.x_est s'] /\
  Ch3_Ex2.vx_estimates s' = Ch3_Ex2.vx_estimates s ++ [Ch3_Ex2.vx_est s'] /\
  Ch3_Ex2.x_predictions s' =
    Ch3_Ex2.x_predictions s
    ++ [add (Ch3_Ex2.x_est s) (mul delta_t (Ch3_Ex2.vx_est s))] /\
  Ch3_Ex2.vx_predictions s' =
    Ch3_Ex2.vx_predictions s ++ [Ch3_Ex2.vx_est s].
Proof.
  unfold Ch3_Ex2.body, div.
  destruct (is_zero delta_t); simpl; [discriminate|].
  intros H; inversion H; subst; simpl. repeat split; reflexivity.
Qed.

Lemma Ch3_Ex4_body_inv (alpha beta gamma delta_t : num) (n : nat) (z : num)
    (s s' : Ch3_Ex4.store) :
  Ch3_Ex4.body alpha beta gamma delta_t n z s = Ok s' ->
  Ch3_Ex4.x_estimates s' = Ch3_Ex4.x_estimates s ++ [Ch3_Ex4.x_est s'] /\
  Ch3_Ex4.vx_estimates s' = Ch3_Ex4.vx_estimates s ++ [Ch3_Ex4.vx_est s'] /\
  Ch3_Ex4.ax_estimates s' = Ch3_Ex4.ax_estimates s ++ [Ch3_Ex4.ax_est s'] /\
  (exists x_pred vx_pred,
      Ch3_Ex4.x_predictions s' = Ch3_Ex4.x_predictions s ++ [x_pred] /\
      Ch3_Ex4.vx_predictions s' = Ch3_Ex4.vx_predictions s ++ [vx_pred]) /\
  Ch3_Ex4.ax_predictions s' =
    Ch3_Ex4.ax_predictions s ++ [Ch3_Ex4.ax_est s].
Proof.
  unfold Ch3_Ex4.body, Ch3_Ex4.predict, div.
  destruct (is_zero delta_t); simpl; [discriminate|].
  destruct (is_zero (mul half (pow2 delta_t))); simpl; [discriminate|].
  intros H; inversion H; subst; simpl.
  repeat split; try reflexivity. do 2 eexists. split; reflexivity.
Qed.

Lemma Kalman_iteration_inv (p_predict : num -> num) (r z : num)
    (s s' : Kalman.store) :
  Kalman.iteration p_predict r z s = Ok s' ->
  Kalman.estimates s' = Kalman.estimates s ++ [Kalman.x_est s'] /\
  Kalman.variances s' = Kalman.variances s ++ [Kalman.p_est s'] /\
  (exists K, Kalman.kalman_gains s' = Kalman.kalman_gains s ++ [K]) /\
  Kalman.predictions s' = Kalman.predictions s ++ [Kalman.x_est s].
Proof.
  unfold Kalman.iteration, Kalman.update, div.
  destruct (is_zero (add (p_predict (Kalman.p_est s)) r)); simpl;
    [discriminate|].
  intros H; inversion H; subst; simpl.
  repeat split; try reflexivity. eexists; reflexivity.
Qed.
End Iterations.

(** ** X1: one entry per measurement *)

Section Lengths.
Context {num : Type} {A : Arith num}.

Lemma Ch3_Ex1_lengths (x0 : num) (ms : list num) (s : Ch3_Ex1.store) :
  Ch3_Ex1.script x0 ms = Ok s ->
  length (Ch3_Ex1.estimates s) = length ms /\
  length (Ch3_Ex1.predictions s) = length ms.
Proof.
  intros Hrun.
  pose proof (@for_enumerate_invariant num _ Ch3_Ex1.body
    (fun n s => (length (Ch3_Ex1.estimates s) + 1 = n /\
                 length (Ch3_Ex1.predictions s) + 1 = n)%nat)) as Hinv.
  cbv beta in Hinv.
  specialize (Hinv ltac:(
    intros n z s1 s2 (H1 & H2) E; apply Ch3_Ex1_body_inv in E;
    destruct E as (E1 & E2); rewrite E1, E2, !length_app; simpl; lia)).
  specialize (Hinv ms 1%nat (Ch3_Ex1.init x0) s ltac:(simpl; lia) Hrun).
  lia.
Qed.

Lemma Ch3_Ex2_lengths (alpha beta delta_t x0 v0 : num) (ms : list num)
    (s : Ch3_Ex2.store) :
  Ch3_Ex2.script alpha beta delta_t x0 v0 ms = Ok s ->
  length (Ch3_Ex2.x_estimates s) = length ms /\
  length (Ch3_Ex2.vx_estimates s) = length ms /\
  length (Ch3_Ex2.x_predictions s) = length ms /\
  length (Ch3_Ex2.vx_predictions s) = length ms.
Proof.
  intros Hrun.
  pose proof (@for_enumerate_invariant num _
    (Ch3_Ex2.body alpha beta delta_t)
    (fun n s => (length (Ch3_Ex2.x_estimates s) + 1 = n /\
                 length (Ch3_Ex2.vx_estimates s) + 1 = n /\
                 length (Ch3_Ex2.x_predictions s) + 1 = n /\
                 length (Ch3_Ex2.vx_predictions s) + 1 = n)%nat)) as Hinv.
  cbv beta in Hinv.
  specialize (Hinv ltac:(
    intros n z s1 s2 (H1 & H2 & H3 & H4) E; apply Ch3_Ex2_body_inv in E;
    destruct E as (E1 & E2 & E3 & E4);
    rewrite E1, E2, E3, E4, !length_app; simpl; lia)).
  specialize (Hinv ms 1%nat (Ch3_Ex2.init x0 v0) s ltac:(simpl; lia) Hrun).
  lia.
Qed.

Lemma Ch3_Ex4_lengths (alpha beta gamma delta_t x0 v0 a0 : num)
    (ms : list num) (s : Ch3_Ex4.store) :
  Ch3_Ex4.script alpha beta gamma delta_t x0 v0 a0 ms = Ok s ->
  length (Ch3_Ex4.x_estimates s) = length ms /\
  length (Ch3_Ex4.vx_estimates s) = length ms /\
  length (Ch3_Ex4.ax_estimates s) = length ms /\
  length (Ch3_Ex4.x_predictions s) = length ms /\
  length (Ch3_Ex4.vx_predictions s) = length ms /\
  length (Ch3_Ex4.ax_predictions s) = length ms.
Proof.
  intros Hrun.
  pose proof (@for_enumerate_invariant num _
    (Ch3_Ex4.body alpha beta gamma delta_t)
    (fun n s => (length (Ch3_Ex4.x_estimates s) + 1 = n /\
                 length (Ch3_Ex4.vx_estimates s) + 1 = n /\
                 length (Ch3_Ex4.ax_estimates s) + 1 = n /\
                 length (Ch3_Ex4.x_predictions s) + 1 = n /\
                 length (Ch3_Ex4.vx_predictions s) + 1 = n /\
                 length (Ch3_Ex4.ax_predictions s) + 1 = n)%nat)) as Hinv.
  cbv beta in Hinv.
  specialize (Hinv ltac:(
    intros n z s1 s2 (H1 & H2 & H3 & H4 & H5 & H6) E;
    apply Ch3_Ex4_body_inv in E;
    destruct E as (E1 & E2 & E3 & (xp & vp & E4 & E5) & E6);
    rewrite E1, E2, E3, E4, E5, E6, !length_app; simpl; lia)).
  specialize (Hinv ms 1%nat (Ch3_Ex4.init x0 v0 a0) s
                ltac:(simpl; lia) Hrun).
  lia.
Qed.

Lemma Kalman_lengths (p_predict : num -> num) (r x0 p0 : num)
    (ms : list num) (s : Kalman.store) :
  for_enumerate (fun _ z s => Kalman.iteration p_predict r z s) 1 ms
    (Kalman.init x0 p0) = Ok s ->
  length (Kalman.estimates s) = length ms /\
  length (Kalman.variances s) = length ms /\
  length (Kalman.kalman_gains s) = length ms /\
  length (Kalman.predictions s) = length ms.
Proof.
  intros Hrun.
  pose proof (@for_enumerate_invariant num _
    (fun _ z s => Kalman.iteration p_predict r z s)
    (fun n s => (length (Kalman.estimates s) + 1 = n /\
                 length (Kalman.variances s) + 1 = n /\
                 length (Kalman.kalman_gains s) + 1 = n /\
                 length (Kalman.predictions s) + 1 = n)%nat)) as Hinv.
  cbv beta in Hinv.
  specialize (Hinv ltac:(
    intros n z s1 s2 (H1 & H2 & H3 & H4) E;
    apply Kalman_iteration_inv in E;
    destruct E as (E1 & E2 & (K & E3) & E4);
    rewrite E1, E2, E3, E4, !length_app; simpl; lia)).
  specialize (Hinv ms 1%nat (Kalman.init x0 p0) s
                ltac:(simpl; lia) Hrun). lia.
Qed.
End Lengths.

(** X1.  When a script's loop completes, every result list holds exactly one
    entry per measurement: this holds of the five loops in any arithmetic. *)
Theorem completed_run_list_lengths
    (num : Type) (A : Arith num)
    (alpha beta gamma delta_t q r x0 v0 a0 p0 : num) (ms : list num) :
  (forall s, Ch3_Ex1.script x0 ms = Ok s ->
     length (Ch3_Ex1.estimates s) = length ms /\
     length (Ch3_Ex1.predictions s) = length ms) /\
  (forall s, Ch3_Ex2.script alpha beta delta_t x0 v0 ms = Ok s ->
     length (Ch3_Ex2.x_estimates s) = length ms /\
     length (Ch3_Ex2.vx_estimates s) = length ms /\
     length (Ch3_Ex2.x_predictions s) = length ms /\
     length (Ch3_Ex2.vx_predictions s) = length ms) /\
  (forall s, Ch3_Ex4.script alpha beta gamma delta_t x0 v0 a0 ms = Ok s ->
     length (Ch3_Ex4.x_estimates s) = length ms /\
     length (Ch3_Ex4.vx_estimates s) = length ms /\
     length (Ch3_Ex4.ax_estimates s) = length ms /\
     length (Ch3_Ex4.x_predictions s) = length ms /\
     length (Ch3_Ex4.vx_predictions s) = length ms /\
     length (Ch3_Ex4.ax_predictions s) = length ms) /\
  (forall s, Ch4_Ex1.script r x0 p0 ms = Ok s ->
     length (Kalman.estimates s) = length ms /\
     length (Kalman.variances s) = length ms /\
     length (Kalman.kalman_gains s) = length ms /\
     length (Kalman.predictions s) = length ms) /\
  (forall s, Ch5_Ex1.script q r x0 p0 ms = Ok s ->
     length (Kalman.estimates s) = length ms /\
     length (Kalman.variances s) = length ms /\
     length (Kalman.kalman_gains s) = length ms /\
     length (Kalman.predictions s) = length ms).
Proof.
  split; [|split; [|split; [|split]]]; intros s Hrun.
  - apply (Ch3_Ex1_lengths _ _ Hrun).
  - apply (Ch3_Ex2_lengths _ _ _ _ _ _ Hrun).
  - apply (Ch3_Ex4_lengths _ _ _ _ _ _ _ _ Hrun).
  - apply (Kalman_lengths (fun p => p) _ _ _ _ Hrun).
  - apply (Kalman_lengths (fun p => add p q) _ _ _ _ Hrun).
Qed.

Lemma completed_run_list_lengths_witness :
  exists s : Kalman.store,
    AsWritten.Ch4_Ex1 = Ok s /\
    length (Kalman.estimates s) = 10%nat /\
    length (Kalman.variances s) = 10%nat /\
    length (Kalman.kalman_gains s) = 10%nat /\
    length (Kalman.predictions s) = 10%nat.
Proof.
  eexists. split; [vm_compute; reflexivity|].
  refine (proj1 (proj2 (proj2 (proj2
    (@completed_run_list_lengths float Binary64
       0%float 0%float 0%float 0%float 0%float
       (pow2 5%float) 60%float 0%float 0%float (pow2 15%float)
       [49.03; 48.44; 55.21; 49.98; 50.6;
        52.61; 45.87; 42.64; 48.26; 55.84]%float)))) _ _).
  vm_compute; reflexivity.
Defined.

(** ** X2: the table loops *)

Lemma row_items_some {num : Type} (columns : list (list num)) (i : nat) :
  Forall (fun c => (i < length c)%nat) columns ->
  exists xs, row_items columns i = Some xs /\
             length xs = length columns.
Proof.
  induction 1 as [|c rest Hc _ IH]; simpl.
  - now exists [].
  - unfold item. destruct (nth_error c i) as [x|] eqn:E.
    + destruct IH as (xs & -> & Hlen). exists (x :: xs). simpl.
      now rewrite Hlen.
    + apply nth_error_None in E. lia.
Qed.

Lemma row_items_none {num : Type} (columns : list (list num)) (i : nat) :
  Exists (fun c => (length c <= i)%nat) columns ->
  row_items columns i = None.
Proof.
  induction 1 as [c rest Hc | c rest _ IH]; simpl; unfold item.
  - apply nth_error_None in Hc. now rewrite Hc.
  - destruct (nth_error c i); [|reflexivity]. now rewrite IH.
Qed.

Lemma time_steps_item {num : Type} (measurements : list num) (i : nat) :
  (i < length measurements)%nat ->
  item (time_steps measurements) i = Some (S i).
Proof.
  intros Hi. unfold item, time_steps.
  rewrite nth_error_nth' with (d := 0%nat) by (rewrite length_seq; lia).
  now rewrite seq_nth.
Qed.

Lemma table_from_some {num : Type} (measurements : list num)
    (columns : list (list num)) (count i : nat) :
  (i + count <= length measurements)%nat ->
  Forall (fun c => (i + count <= length c)%nat) columns ->
  exists rows,
    table_from measurements columns i count = Some rows /\
    length rows = count /\
    forall k, (k < count)%nat ->
      exists xs, nth_error rows k = Some (S (i + k), xs) /\
                 row_items columns (i + k) = Some xs.
Proof.
  revert i; induction count as [|count IH]; intros i Hm Hc; simpl.
  - exists []. repeat split. intros k Hk. inversion Hk.
  - unfold table_row. rewrite time_steps_item by lia.
    destruct (@row_items_some _ columns i) as (xs & Hxs & _).
    { eapply Forall_impl; [|exact Hc]. simpl. intros; lia. }
    rewrite Hxs.
    destruct (IH (S i)) as (rows & Hrows & Hlen & Hnth).
    { lia. }
    { eapply Forall_impl; [|exact Hc]. simpl. intros; lia. }
    rewrite Hrows. exists ((S i, xs) :: rows). repeat split.
    + simpl. now rewrite Hlen.
    + intros [|k] Hk.
      * exists xs. rewrite Nat.add_0_r. split; [reflexivity | exact Hxs].
      * destruct (Hnth k ltac:(lia)) as (ys & Hk1 & Hk2).
        exists ys. rewrite <- Nat.add_succ_comm. split; assumption.
Qed.

Lemma table_from_none {num : Type} (measurements : list num)
    (columns : list (list num)) (count i : nat) :
  Exists (fun c => (length c < i + count)%nat) columns ->
  (0 < count)%nat ->
  table_from measurements columns i count = None.
Proof.
  revert i; induction count as [|count IH]; intros i Hc Hpos; simpl.
  - inversion Hpos.
  - unfold table_row. destruct (item (time_steps measurements) i);
      [|reflexivity].
    destruct (row_items columns i) as [xs|] eqn:Hxs; [|reflexivity].
    rewrite Exists_exists in Hc. destruct Hc as (c & Hin & Hc).
    destruct (Nat.le_gt_cases (length c) i) as [Hle|Hgt].
    + rewrite row_items_none in Hxs; [discriminate|].
      rewrite Exists_exists. now exists c.
    + rewrite IH; [reflexivity | | lia].
      rewrite Exists_exists. exists c. split; [exact Hin | lia].
Qed.

(** X2.  A table loop formats one row per measurement, row i carrying the
    time step i + 1 and entry i of every column, exactly when every column
    it indexes has at least as many entries as there are measurements; with
    a shorter column its lookup fails (IndexError in Python).  After a
    completed run of a script its table loop therefore never fails: shown
    here for the columns of Ch-3 Ex-1 and of Ch-4 Ex-1. *)
Theorem table_loop_rows
    (num : Type) (A : Arith num) (measurements : list num) :
  (forall columns : list (list num),
      Forall (fun c => (length measurements <= length c)%nat) columns ->
      exists rows,
        table_rows measurements columns = Some rows /\
        length rows = length measurements /\
        forall k, (k < length measurements)%nat ->
          exists xs, nth_error rows k = Some (S k, xs) /\
                     row_items columns k = Some xs) /\
  (forall columns : list (list num),
      Exists (fun c => (length c < length measurements)%nat) columns ->
      table_rows measurements columns = None) /\
  (forall (x0 : num) (s : Ch3_Ex1.store),
      Ch3_Ex1.script x0 measurements = Ok s ->
      exists rows,
        table_rows measurements
          [measurements; Ch3_Ex1.predictions s; Ch3_Ex1.estimates s]
        = Some rows /\ length rows = length measurements) /\
  (forall (r x0 p0 : num) (s : Kalman.store),
      Ch4_Ex1.script r x0 p0 measurements = Ok s ->
      exists rows,
        table_rows measurements
          [measurements; Kalman.predictions s; Kalman.estimates s;
           Kalman.variances s; Kalman.kalman_gains s]
        = Some rows /\ length rows = length measurements).
Proof.
  assert (Hsome : forall columns : list (list num),
      Forall (fun c => (length measurements <= length c)%nat) columns ->
      exists rows,
        table_rows measurements columns = Some rows /\
        length rows = length measurements /\
        forall k, (k < length measurements)%nat ->
          exists xs, nth_error rows k = Some (S k, xs) /\
                     row_items columns k = Some xs).
  { intros columns Hc. unfold table_rows.
    destruct (@table_from_some _ measurements columns
                (length measurements) 0) as (rows & H1 & H2 & H3);
      [simpl; lia | exact Hc |].
    exists rows. repeat split; trivial. }
  split; [exact Hsome|]. split; [|split].
  - intros columns Hc. unfold table_rows.
    apply table_from_none; [exact Hc|].
    rewrite Exists_exists in Hc. destruct Hc as (c & _ & Hc). lia.
  - intros x0 s Hrun.
    destruct (Ch3_Ex1_lengths _ _ Hrun) as (He & Hp).
    destruct (Hsome [measurements; Ch3_Ex1.predictions s;
                     Ch3_Ex1.estimates s]) as (rows & Hr & Hl & _).
    { repeat constructor; lia. }
    exists rows. split; assumption.
  - intros r x0 p0 s Hrun.
    destruct (Kalman_lengths (fun p => p) _ _ _ _ Hrun)
      as (He & Hv & Hg & Hp).
    destruct (Hsome [measurements; Kalman.predictions s; Kalman.estimates s;
                     Kalman.variances s; Kalman.kalman_gains s])
      as (rows & Hr & Hl & _).
    { repeat constructor; lia. }
    exists rows. split; assumption.
Qed.

Lemma table_loop_rows_witness :
  exists (s : Ch3_Ex1.store) (rows : list (nat * list float)),
    Ch3_Ex1.script 1000%float [996; 994; 1021]%float = Ok s /\
    table_rows [996; 994; 1021]%float
      [[996; 994; 1021]%float; Ch3_Ex1.predictions s; Ch3_Ex1.estimates s]
    = Some rows /\
    length rows = 3%nat.
Proof.
  eexists.
  assert (Hrun : Ch3_Ex1.script 1000%float [996; 994; 1021]%float = Ok _)
    by (vm_compute; reflexivity).
  destruct (proj1 (proj2 (proj2
    (@table_loop_rows float Binary64 [996; 994; 1021]%float)))
    1000%float _ Hrun) as (rows & Hrows & Hlen).
  exists rows. split; [exact Hrun|]. split; assumption.
Defined.

(** ** X3, X4: what is predicted is what was last estimated *)

Lemma last_cons_default {X : Type} (x0 d : X) (l : list X) :
  last (x0 :: l) d = last l x0.
Proof.
  revert x0 d; induction l as [|a l IH]; intros x0 d; [reflexivity|].
  change (last (x0 :: a :: l) d) with (last (a :: l) d).
  now rewrite !IH.
Qed.

(** Appending the held value to the predictions and a new value to the
    estimates keeps the predictions one step behind the estimates. *)
Lemma shifted_snoc {X : Type} (x0 held new : X) (ests preds : list X) :
  preds = removelast (x0 :: ests) ->
  held = last ests x0 ->
  preds ++ [held] = removelast (x0 :: ests ++ [new]) /\
  new = last (ests ++ [new]) x0.
Proof.
  intros -> ->. split.
  - rewrite app_comm_cons, removelast_last.
    rewrite <- (last_cons_default x0 x0 ests).
    symmetry. apply app_removelast_last. discriminate.
  - now rewrite last_last.
Qed.

Section Shifted.
Context {num : Type} {A : Arith num}.

Lemma Ch3_Ex1_shifted (x0 : num) (ms : list num) (s : Ch3_Ex1.store) :
  Ch3_Ex1.script x0 ms = Ok s ->
  Ch3_Ex1.predictions s = removelast (x0 :: Ch3_Ex1.estimates s) /\
  Ch3_Ex1.x_est s = last (Ch3_Ex1.estimates s) x0.
Proof.
  intros Hrun.
  apply (@for_enumerate_invariant num _ Ch3_Ex1.body
    (fun _ s =>
       Ch3_Ex1.predictions s = removelast (x0 :: Ch3_Ex1.estimates s) /\
       Ch3_Ex1.x_est s = last (Ch3_Ex1.estimates s) x0)
    ltac:(intros n z s1 s2 (H1 & H2) E; apply Ch3_Ex1_body_inv in E;
          destruct E as (E1 & E2); rewrite E1, E2;
          apply shifted_snoc; assumption)
    ms 1%nat (Ch3_Ex1.init x0) s); [|exact Hrun].
  split; reflexivity.
Qed.

Lemma Kalman_shifted (p_predict : num -> num) (r x0 p0 : num)
    (ms : list num) (s : Kalman.store) :
  for_enumerate (fun _ z s => Kalman.iteration p_predict r z s) 1 ms
    (Kalman.init x0 p0) = Ok s ->
  Kalman.predictions s = removelast (x0 :: Kalman.estimates s) /\
  Kalman.x_est s = last (Kalman.estimates s) x0 /\
  Kalman.p_est s = last (Kalman.variances s) p0.
Proof.
  intros Hrun.
  apply (@for_enumerate_invariant num _
    (fun _ z s => Kalman.iteration p_predict r z s)
    (fun _ s =>
       Kalman.predictions s = removelast (x0 :: Kalman.estimates s) /\
       Kalman.x_est s = last (Kalman.estimates s) x0 /\
       Kalman.p_est s = last (Kalman.variances s) p0)
    ltac:(intros n z s1 s2 (H1 & H2 & H3) E;
          apply Kalman_iteration_inv in E;
          destruct E as (E1 & E2 & _ & E4); rewrite E1, E2, E4;
          destruct (@shifted_snoc _ _ _ (Kalman.x_est s2) _ _ H1 H2);
          repeat split; try assumption; now rewrite last_last)
    ms 1%nat (Kalman.init x0 p0) s); [|exact Hrun].
  repeat split; reflexivity.
Qed.

Lemma Ch3_Ex2_shifted (alpha beta delta_t x0 v0 : num) (ms : list num)
    (s : Ch3_Ex2.store) :
  Ch3_Ex2.script alpha beta delta_t x0 v0 ms = Ok s ->
  Ch3_Ex2.vx_predictions s = removelast (v0 :: Ch3_Ex2.vx_estimates s) /\
  Ch3_Ex2.vx_est s = last (Ch3_Ex2.vx_estimates s) v0 /\
  Ch3_Ex2.x_est s = last (Ch3_Ex2.x_estimates s) x0.
Proof.
  intros Hrun.
  apply (@for_enumerate_invariant num _ (Ch3_Ex2.body alpha beta delta_t)
    (fun _ s =>
       Ch3_Ex2.vx_predictions s
         = removelast (v0 :: Ch3_Ex2.vx_estimates s) /\
       Ch3_Ex2.vx_est s = last (Ch3_Ex2.vx_estimates s) v0 /\
       Ch3_Ex2.x_est s = last (Ch3_Ex2.x_estimates s) x0)
    ltac:(intros n z s1 s2 (H1 & H2 & H3) E;
          apply Ch3_Ex2_body_inv in E;
          destruct E as (E1 & E2 & _ & E4); rewrite E1, E2, E4;
          destruct (@shifted_snoc _ _ _ (Ch3_Ex2.vx_est s2) _ _ H1 H2);
          repeat split; try assumption; now rewrite last_last)
    ms 1%nat (Ch3_Ex2.init x0 v0) s); [|exact Hrun].
  repeat split; reflexivity.
Qed.

Lemma Ch3_Ex4_shifted (alpha beta gamma delta_t x0 v0 a0 : num)
    (ms : list num) (s : Ch3_Ex4.store) :
  Ch3_Ex4.script alpha beta gamma delta_t x0 v0 a0 ms = Ok s ->
  Ch3_Ex4.ax_predictions s = removelast (a0 :: Ch3_Ex4.ax_estimates s) /\
  Ch3_Ex4.ax_est s = last (Ch3_Ex4.ax_estimates s) a0 /\
  Ch3_Ex4.vx_est s = last (Ch3_Ex4.vx_estimates s) v0 /\
  Ch3_Ex4.x_est s = last (Ch3_Ex4.x_estimates s) x0.
Proof.
  intros Hrun.
  apply (@for_enumerate_invariant num _
    (Ch3_Ex4.body alpha beta gamma delta_t)
    (fun _ s =>
       Ch3_Ex4.ax_predictions s
         = removelast (a0 :: Ch3_Ex4.ax_estimates s) /\
       Ch3_Ex4.ax_est s = last (Ch3_Ex4.ax_estimates s) a0 /\
       Ch3_Ex4.vx_est s = last (Ch3_Ex4.vx_estimates s) v0 /\
       Ch3_Ex4.x_est s = last (Ch3_Ex4.x_estimates s) x0)
    ltac:(intros n z s1 s2 (H1 & H2 & H3 & H4) E;
          apply Ch3_Ex4_body_inv in E;
          destruct E as (E1 & E2 & E3 & _ & E6); rewrite E1, E2, E3, E6;
          destruct (@shifted_snoc _ _ _ (Ch3_Ex4.ax_est s2) _ _ H1 H2);
          repeat split; try assumption; now rewrite last_last)
    ms 1%nat (Ch3_Ex4.init x0 v0 a0) s); [|exact Hrun].
  repeat split; reflexivity.
Qed.
End Shifted.

(** X3.  In the static scripts (Ch-3 Ex-1, Ch-4 Ex-1, Ch-5) a completed
    run's prediction list is its estimate list shifted by one step: the
    initial estimate followed by all estimates but the last.  The variables
    the loop leaves behind hold the last recorded estimate and variance (the
    initial ones when there was no measurement).  Any arithmetic. *)
Theorem static_predictions_are_previous_estimates
    (num : Type) (A : Arith num) (q r x0 p0 : num) (ms : list num) :
  (forall s, Ch3_Ex1.script x0 ms = Ok s ->
     Ch3_Ex1.predictions s = removelast (x0 :: Ch3_Ex1.estimates s) /\
     Ch3_Ex1.x_est s = last (Ch3_Ex1.estimates s) x0) /\
  (forall s, Ch4_Ex1.script r x0 p0 ms = Ok s ->
     Kalman.predictions s = removelast (x0 :: Kalman.estimates s) /\
     Kalman.x_est s = last (Kalman.estimates s) x0 /\
     Kalman.p_est s = last (Kalman.variances s) p0) /\
  (forall s, Ch5_Ex1.script q r x0 p0 ms = Ok s ->
     Kalman.predictions s = removelast (x0 :: Kalman.estimates s) /\
     Kalman.x_est s = last (Kalman.estimates s) x0 /\
     Kalman.p_est s = last (Kalman.variances s) p0).
Proof.
  split; [|split]; intros s Hrun.
  - apply (Ch3_Ex1_shifted _ _ Hrun).
  - apply (Kalman_shifted (fun p => p) _ _ _ _ Hrun).
  - apply (Kalman_shifted (fun p => add p q) _ _ _ _ Hrun).
Qed.

Lemma static_predictions_are_previous_estimates_witness :
  exists s : Ch3_Ex1.store,
    Ch3_Ex1.script 1000%float [996; 994; 1021]%float = Ok s /\
    Ch3_Ex1.predictions s = removelast (1000%float :: Ch3_Ex1.estimates s) /\
    Ch3_Ex1.x_est s = last (Ch3_Ex1.estimates s) 1000%float.
Proof.
  eexists.
  assert (Hrun : Ch3_Ex1.script 1000%float [996; 994; 1021]%float = Ok _)
    by (vm_compute; reflexivity).
  split; [exact Hrun|].
  exact (proj1 (@static_predictions_are_previous_estimates float Binary64
                  0%float 0%float 1000%float 0%float
                  [996; 994; 1021]%float) _ Hrun).
Defined.

(** X4.  In the alpha-beta scripts (Ex-2, Ex-3) a completed run's velocity
    predictions are its velocity estimates shifted by one step, starting from
    the initial velocity; in the alpha-beta-gamma script (Ex-4) the same
    holds of the acceleration.  The state variables left behind hold the
    last recorded estimates.  Any arithmetic. *)
Theorem carried_component_predictions
    (num : Type) (A : Arith num)
    (alpha beta gamma delta_t x0 v0 a0 : num) (ms : list num) :
  (forall s, Ch3_Ex2.script alpha beta delta_t x0 v0 ms = Ok s ->
     Ch3_Ex2.vx_predictions s = removelast (v0 :: Ch3_Ex2.vx_estimates s) /\
     Ch3_Ex2.vx_est s = last (Ch3_Ex2.vx_estimates s) v0 /\
     Ch3_Ex2.x_est s = last (Ch3_Ex2.x_estimates s) x0) /\
  (forall s, Ch3_Ex4.script alpha beta gamma delta_t x0 v0 a0 ms = Ok s ->
     Ch3_Ex4.ax_predictions s = removelast (a0 :: Ch3_Ex4.ax_estimates s) /\
     Ch3_Ex4.ax_est s = last (Ch3_Ex4.ax_estimates s) a0 /\
     Ch3_Ex4.vx_est s = last (Ch3_Ex4.vx_estimates s) v0 /\
     Ch3_Ex4.x_est s = last (Ch3_Ex4.x_estimates s) x0).
Proof.
  split; intros s Hrun.
  - apply (Ch3_Ex2_shifted _ _ _ _ _ _ Hrun).
  - apply (Ch3_Ex4_shifted _ _ _ _ _ _ _ _ Hrun).
Qed.

Lemma carried_component_predictions_witness :
  exists s : Ch3_Ex2.store,
    Ch3_Ex2.script 0.2%float 0.1%float 5%float 30000%float 40%float
      [30171; 30353]%float = Ok s /\
    Ch3_Ex2.vx_predictions s
      = removelast (40%float :: Ch3_Ex2.vx_estimates s) /\
    Ch3_Ex2.vx_est s = last (Ch3_Ex2.vx_estimates s) 40%float /\
    Ch3_Ex2.x_est s = last (Ch3_Ex2.x_estimates s) 30000%float.
Proof.
  eexists.
  assert (Hrun : Ch3_Ex2.script 0.2%float 0.1%float 5%float 30000%float
                   40%float [30171; 30353]%float = Ok _)
    by (vm_compute; reflexivity).
  split; [exact Hrun|].
  exact (proj1 (@carried_component_predictions float Binary64
                  0.2%float 0.1%float 0%float 5%float
                  30000%float 40%float 0%float [30171; 30353]%float)
           _ Hrun).
Defined.

(** ** X5: a covariance run can be resumed *)

Section Resume.
Context {num : Type} {A : Arith num}.
Variable p_predict : num -> num.
Variable r : num.

Let body (n : nat) (z : num) (s : Kalman.store (num := num))
  : result Kalman.store := Kalman.iteration p_predict r z s.

(** The loop reads [x_est] and [p_est] only, whatever the index and whatever
    the lists already hold: started on a store, it ends as it ends on a fresh
    store with the same two variables, its new entries appended. *)
Lemma Kalman_frame (ms : list num) (n n' : nat) (s : Kalman.store) :
  for_enumerate body n ms s =
  let* s2 := for_enumerate body n' ms
               (Kalman.init (Kalman.x_est s) (Kalman.p_est s)) in
  Ok (Kalman_resumed s s2).
Proof.
  revert n n' s; induction ms as [|z ms IH]; intros n n' s.
  - simpl. destruct s; unfold Kalman_resumed; simpl.
    now rewrite !app_nil_r.
  - simpl. unfold body at 1 3, Kalman.iteration. simpl.
    destruct (Kalman.update r z (Kalman.x_est s)
                (p_predict (Kalman.p_est s))) as [[[K xe] pe]|e];
      simpl; [|reflexivity].
    rewrite (IH (S n) 1%nat). rewrite (IH (S n') 1%nat). simpl.
    destruct (for_enumerate body 1 ms (Kalman.init xe pe)) as [s2|e];
      simpl; [|reflexivity].
    unfold Kalman_resumed; simpl. now rewrite <- !app_assoc.
Qed.
End Resume.

(** X5.  A covariance script run on [ms1 ++ ms2] ends as the run on [ms1]
    followed by a second run on [ms2] started from the estimate and variance
    the first one ended with, the lists of the second run appended to those
    of the first; a run that raises in either part raises as a whole.  Any
    arithmetic, Ch-4 and Ch-5 alike. *)
Theorem covariance_run_resumes
    (num : Type) (A : Arith num) (q r x0 p0 : num) (ms1 ms2 : list num) :
  Ch4_Ex1.script r x0 p0 (ms1 ++ ms2) =
    (let* s1 := Ch4_Ex1.script r x0 p0 ms1 in
     let* s2 := Ch4_Ex1.script r (Kalman.x_est s1) (Kalman.p_est s1) ms2 in
     Ok (Kalman_resumed s1 s2)) /\
  Ch5_Ex1.script q r x0 p0 (ms1 ++ ms2) =
    (let* s1 := Ch5_Ex1.script q r x0 p0 ms1 in
     let* s2 := Ch5_Ex1.script q r (Kalman.x_est s1) (Kalman.p_est s1) ms2 in
     Ok (Kalman_resumed s1 s2)).
Proof.
  split.
  - unfold Ch4_Ex1.script. rewrite for_enumerate_app.
    destruct (for_enumerate (Ch4_Ex1.body r) 1 ms1 (Kalman.init x0 p0))
      as [s1|e]; simpl; [|reflexivity].
    apply (Kalman_frame (fun p => p) r ms2 (length ms1 + 1) 1 s1).
  - unfold Ch5_Ex1.script. rewrite for_enumerate_app.
    destruct (for_enumerate (Ch5_Ex1.body q r) 1 ms1 (Kalman.init x0 p0))
      as [s1|e]; simpl; [|reflexivity].
    apply (Kalman_frame (fun p => add p q) r ms2 (length ms1 + 1) 1 s1).
Qed.

(** ** X6, X7: the variance recursion in exact arithmetic *)

Lemma noiseless_step (r p0 m P : Q) :
  0 < r -> 0 <= p0 -> 0 <= m ->
  P == p0 * r / (r + m * p0) ->
  (P + 0) / (P + 0 + r) == p0 / (r + (m + 1) * p0) /\
  (1 - (P + 0) / (P + 0 + r)) * (P + 0) == p0 * r / (r + (m + 1) * p0).
Proof.
  intros Hr Hp Hm HP.
  assert (H1 : 0 < r + m * p0) by nra.
  assert (H2 : 0 < r + (m + 1) * p0) by nra.
  assert (H3 : 0 <= P).
  { rewrite HP. apply Qle_shift_div_l; [exact H1|]. nra. }
  rewrite HP in *. split; field; repeat split; nra.
Qed.

(** X6.  Ch-4 Ex-1 (no process noise) in exact arithmetic, with r > 0 and
    initial variance p0 >= 0: step n records the gain p0 / (r + n p0) and the
    variance p0 r / (r + n p0), whatever the measurements. *)
Theorem noiseless_gain_and_variance_closed_form
    (r x0 p0 : Q) (ms : list Q) :
  0 < r -> 0 <= p0 ->
  exists s : Kalman.store,
    Ch4_Ex1.script r x0 p0 ms = Ok s /\
    forall n, (1 <= n <= length ms)%nat ->
      nth (n - 1) (Kalman.kalman_gains s) 0
        == p0 / (r + inject_Z (Z.of_nat n) * p0) /\
      nth (n - 1) (Kalman.variances s) 0
        == p0 * r / (r + inject_Z (Z.of_nat n) * p0).
Proof.
  intros Hr Hp0. assert (H0 : 0 <= 0) by lra.
  destruct (@covariance_loop 0 r H0 Hr (fun p => p)
              (fun p => Qeq_sym _ _ (Qplus_0_r p)) x0 p0 ms Hp0)
    as (s & Hrun & Hinv).
  exists s. split; [exact Hrun|].
  assert (Hprev : forall k, (k <= length ms)%nat ->
            nth k (p0 :: Kalman.variances s) 0
              == p0 * r / (r + inject_Z (Z.of_nat k) * p0)).
  { induction k as [|k IH]; intros Hk.
    - simpl. field. lra.
    - destruct (ci_step Hinv (k := k) ltac:(lia)) as [_ HP].
      cbv zeta in HP. cbn [nth]. rewrite HP.
      destruct (@noiseless_step r p0 (inject_Z (Z.of_nat k))
                  (nth k (p0 :: Kalman.variances s) 0) Hr Hp0
                  (inject_Z_nat_nonneg k) (IH ltac:(lia))) as [_ H].
      rewrite H, inject_Z_succ. reflexivity. }
  intros n Hn. replace n with (S (n - 1)) at 2 4 by lia.
  destruct (ci_step Hinv (k := (n - 1)%nat) ltac:(lia)) as [HK HP].
  cbv zeta in HK, HP. rewrite HK, HP.
  destruct (@noiseless_step r p0 (inject_Z (Z.of_nat (n - 1)))
              (nth (n - 1) (p0 :: Kalman.variances s) 0) Hr Hp0
              (inject_Z_nat_nonneg _) (Hprev (n - 1)%nat ltac:(lia))) as [H1 H2].
  rewrite H2, H1, inject_Z_succ. split; reflexivity.
Qed.

Lemma noiseless_gain_and_variance_closed_form_witness :
  (0 < 25 /\ 0 <= 225) /\
  exists s : Kalman.store,
    Ch4_Ex1.script 25 60 225 [49.03; 48.44; 55.21] = Ok s /\
    forall n, (1 <= n <= 3)%nat ->
      nth (n - 1) (Kalman.kalman_gains s) 0
        == 225 / (25 + inject_Z (Z.of_nat n) * 225) /\
      nth (n - 1) (Kalman.variances s) 0
        == 225 * 25 / (25 + inject_Z (Z.of_nat n) * 225).
Proof.
  assert (Hr : 0 < 25) by reflexivity.
  assert (Hp : 0 <= 225) by (vm_compute; discriminate).
  split; [split; assumption|].
  exact (@noiseless_gain_and_variance_closed_form
           25 60 225 [49.03; 48.44; 55.21] Hr Hp).
Defined.

(** X7.  Covariance scripts in exact arithmetic, q >= 0, r > 0, initial
    variance p0 >= 0: the variance recorded at a step is the gain recorded at
    that step times the measurement variance, and stays strictly below the
    measurement variance. *)
Theorem variance_is_gain_times_measurement_variance
    (q r x0 p0 : Q) (ms : list Q) :
  0 <= q -> 0 < r -> 0 <= p0 ->
  (exists s : Kalman.store,
      Ch5_Ex1.script q r x0 p0 ms = Ok s /\
      forall k, (k < length ms)%nat ->
        nth k (Kalman.variances s) 0
          == nth k (Kalman.kalman_gains s) 0 * r /\
        nth k (Kalman.variances s) 0 < r) /\
  (exists s : Kalman.store,
      Ch4_Ex1.script r x0 p0 ms = Ok s /\
      forall k, (k < length ms)%nat ->
        nth k (Kalman.variances s) 0
          == nth k (Kalman.kalman_gains s) 0 * r /\
        nth k (Kalman.variances s) 0 < r).
Proof.
  intros Hq Hr Hp0.
  assert (Hgen : forall q', 0 <= q' -> forall s : Kalman.store,
            covariance_inv q' r p0 ms s ->
            forall k, (k < length ms)%nat ->
              nth k (Kalman.variances s) 0
                == nth k (Kalman.kalman_gains s) 0 * r /\
              nth k (Kalman.variances s) 0 < r).
  { intros q' Hq' s Hinv k Hk.
    destruct (ci_step Hinv Hk) as [HK HP]. cbv zeta in HK, HP.
    assert (Hpred : 0 <= nth k (p0 :: Kalman.variances s) 0 + q').
    { assert (0 <= nth k (p0 :: Kalman.variances s) 0)
        by (apply (ci_nonneg Hinv); lia). lra. }
    revert HK HP Hpred.
    generalize (nth k (p0 :: Kalman.variances s) 0 + q'). intros P HK HP HP0.
    assert (E : (1 - P / (P + r)) * P == P / (P + r) * r) by (field; lra).
    rewrite HP, HK. split; [exact E|]. rewrite E.
    assert (P / (P + r) < 1) by (apply Qlt_shift_div_r; lra).
    nra. }
  split.
  - destruct (@covariance_loop q r Hq Hr (fun p => p + q)
                (fun p => Qeq_refl _) x0 p0 ms Hp0) as (s & Hrun & Hinv).
    exists s. split; [exact Hrun|]. apply (Hgen q Hq s Hinv).
  - assert (H0 : 0 <= 0) by lra.
    destruct (@covariance_loop 0 r H0 Hr (fun p => p)
                (fun p => Qeq_sym _ _ (Qplus_0_r p)) x0 p0 ms Hp0)
      as (s & Hrun & Hinv).
    exists s. split; [exact Hrun|]. apply (Hgen 0 H0 s Hinv).
Qed.

Lemma variance_is_gain_times_measurement_variance_witness :
  (0 <= 0.15 /\ 0 < 0.01 /\ 0 <= 10000) /\
  exists s : Kalman.store,
    Ch5_Ex1.script 0.15 0.01 10 10000 [50.486; 50.963] = Ok s /\
    forall k, (k < 2)%nat ->
      nth k (Kalman.variances s) 0
        == nth k (Kalman.kalman_gains s) 0 * 0.01 /\
      nth k (Kalman.variances s) 0 < 0.01.
Proof.
  assert (Hq : 0 <= 0.15) by (vm_compute; discriminate).
  assert (Hr : 0 < 0.01) by reflexivity.
  assert (Hp : 0 <= 10000) by (vm_compute; discriminate).
  split; [repeat split; assumption|].
  exact (proj1 (@variance_is_gain_times_measurement_variance
                  0.15 0.01 10 10000 [50.486; 50.963] Hq Hr Hp)).
Defined.

(** ** X8: estimates stay between what was seen *)

Lemma Exact_update (r z x_pred p_pred : Q) :
  ~ p_pred + r == 0 ->
  Kalman.update r z x_pred p_pred =
  Ok (p_pred / (p_pred + r),
      x_pred + p_pred / (p_pred + r) * (z - x_pred),
      (1 - p_pred / (p_pred + r)) * p_pred).
Proof.
  intros H. unfold Kalman.update. rewrite Exact_div by exact H. reflexivity.
Qed.

Lemma convex_step (lo hi x z K : Q) :
  lo <= x <= hi -> lo <= z <= hi -> 0 <= K <= 1 ->
  lo <= x + K * (z - x) <= hi.
Proof. intros. split; nra. Qed.

Section Hull.
Variables q r lo hi : Q.
Hypothesis q_nonneg : 0 <= q.
Hypothesis r_pos : 0 < r.
Variable p_predict : Q -> Q.
Hypothesis p_predict_adds_q : forall p, p_predict p == p + q.

Let inside (x : Q) : Prop := lo <= x <= hi.

Lemma covariance_hull (ms : list Q) (n : nat) (s : Kalman.store (num := Q)) :
  inside (Kalman.x_est s) -> 0 <= Kalman.p_est s ->
  Forall inside ms ->
  Forall inside (Kalman.estimates s) ->
  Forall inside (Kalman.predictions s) ->
  exists s',
    for_enumerate (fun _ z s => Kalman.iteration p_predict r z s) n ms s
      = Ok s' /\
    Forall inside (Kalman.estimates s') /\
    Forall inside (Kalman.predictions s').
Proof.
  revert n s; induction ms as [|z ms IH]; intros n s Hx Hp Hms He Hpr.
  - exists s. simpl. auto.
  - inversion Hms as [|z' ms' Hz Hrest]; subst.
    assert (Hpred : 0 <= p_predict (Kalman.p_est s))
      by (rewrite p_predict_adds_q; lra).
    cbn [for_enumerate]. unfold Kalman.iteration at 1.
    rewrite (update_exact r_pos _ _ Hpred). cbn [bind].
    apply IH; cbn [Kalman.x_est Kalman.p_est Kalman.estimates
                   Kalman.predictions]; trivial.
    + apply convex_step; trivial. apply (gain_bounds r_pos Hpred).
    + apply (updated_variance_bounds r_pos Hpred).
    + apply Forall_app. split; [exact He|]. constructor; [|constructor].
      apply convex_step; trivial. apply (gain_bounds r_pos Hpred).
    + apply Forall_app. split; [exact Hpr|].
      constructor; [exact Hx | constructor].
Qed.
End Hull.

(** X8.  Covariance scripts in exact arithmetic, q >= 0, r > 0, initial
    variance p0 >= 0: when the initial estimate and every measurement lie in
    an interval [lo, hi], so does every recorded prediction and estimate: the
    filter never leaves the range of what it was given. *)
Theorem covariance_estimates_stay_in_range
    (q r x0 p0 lo hi : Q) (ms : list Q) :
  0 <= q -> 0 < r -> 0 <= p0 ->
  lo <= x0 <= hi ->
  Forall (fun z => lo <= z <= hi) ms ->
  (exists s : Kalman.store,
      Ch5_Ex1.script q r x0 p0 ms = Ok s /\
      Forall (fun x => lo <= x <= hi) (Kalman.estimates s) /\
      Forall (fun x => lo <= x <= hi) (Kalman.predictions s)) /\
  (exists s : Kalman.store,
      Ch4_Ex1.script r x0 p0 ms = Ok s /\
      Forall (fun x => lo <= x <= hi) (Kalman.estimates s) /\
      Forall (fun x => lo <= x <= hi) (Kalman.predictions s)).
Proof.
  intros Hq Hr Hp0 Hx0 Hms. split.
  - apply (@covariance_hull q r lo hi Hq Hr (fun p => p + q)
             (fun p => Qeq_refl _) ms 1 (Kalman.init x0 p0));
      simpl; trivial.
  - assert (H0 : 0 <= 0) by lra.
    apply (@covariance_hull 0 r lo hi H0 Hr (fun p => p)
             (fun p => Qeq_sym _ _ (Qplus_0_r p)) ms 1 (Kalman.init x0 p0));
      simpl; trivial.
Qed.

Lemma covariance_estimates_stay_in_range_witness :
  (0 <= 0.0001 /\ 0 < 0.01 /\ 0 <= 10000 /\ 49 <= 60 <= 60 /\
   Forall (fun z => 49 <= z <= 60) [49.986; 49.963]) /\
  exists s : Kalman.store,
    Ch5_Ex1.script 0.0001 0.01 60 10000 [49.986; 49.963] = Ok s /\
    Forall (fun x => 49 <= x <= 60) (Kalman.estimates s) /\
    Forall (fun x => 49 <= x <= 60) (Kalman.predictions s).
Proof.
  assert (Hq : 0 <= 0.0001) by (vm_compute; discriminate).
  assert (Hr : 0 < 0.01) by reflexivity.
  assert (Hp : 0 <= 10000) by (vm_compute; discriminate).
  assert (Hx : 49 <= 60 <= 60) by (split; vm_compute; discriminate).
  assert (Hms : Forall (fun z => 49 <= z <= 60) [49.986; 49.963])
    by (repeat constructor; vm_compute; discriminate).
  split; [repeat split; try assumption; apply Hx|].
  exact (proj1 (@covariance_estimates_stay_in_range
                  0.0001 0.01 60 10000 49 60 [49.986; 49.963]
                  Hq Hr Hp Hx Hms)).
Defined.

(** ** X9: a measurement variance of zero *)

Lemma full_trust_step (r P : Q) :
  r == 0 -> 0 < P ->
  P / (P + r) == 1 /\ (1 - P / (P + r)) * P == 0.
Proof.
  intros Hr HP. rewrite Hr. split; field; lra.
Qed.

Lemma copying_loop (q r : Q) (ms : list Q) (n : nat)
    (s : Kalman.store (num := Q)) :
  r == 0 -> 0 < q -> 0 <= Kalman.p_est s ->
  exists s' new,
    for_enumerate (Ch5_Ex1.body q r) n ms s = Ok s' /\
    Kalman.estimates s' = Kalman.estimates s ++ new /\
    Forall2 Qeq new ms.
Proof.
  intros Hr Hq. revert n s; induction ms as [|z ms IH]; intros n s Hp.
  - exists s, []. simpl. rewrite app_nil_r. auto.
  - cbn [for_enumerate]. unfold Ch5_Ex1.body at 1, Kalman.iteration.
    assert (HP : 0 < Kalman.p_est s + q) by lra.
    destruct (full_trust_step Hr HP) as [HK Hv].
    rewrite Exact_update by (simpl; rewrite Hr; lra). cbn [bind].
    destruct (IH (S n)
      {| Kalman.x_est := Kalman.x_est s
           + add (Kalman.p_est s) q / (add (Kalman.p_est s) q + r)
             * (z - Kalman.x_est s);
         Kalman.p_est :=
           (1 - add (Kalman.p_est s) q / (add (Kalman.p_est s) q + r))
           * add (Kalman.p_est s) q;
         Kalman.estimates := Kalman.estimates s ++
           [Kalman.x_est s
            + add (Kalman.p_est s) q / (add (Kalman.p_est s) q + r)
              * (z - Kalman.x_est s)];
         Kalman.variances := Kalman.variances s ++
           [(1 - add (Kalman.p_est s) q / (add (Kalman.p_est s) q + r))
            * add (Kalman.p_est s) q];
         Kalman.kalman_gains := Kalman.kalman_gains s ++
           [add (Kalman.p_est s) q / (add (Kalman.p_est s) q + r)];
         Kalman.predictions := Kalman.predictions s ++ [Kalman.x_est s] |})
      as (s' & new & Hrun & Hest & Hnew).
    { cbn [Kalman.p_est]. simpl add. rewrite Hv. lra. }
    exists s'. eexists. split; [exact Hrun|]. split.
    + rewrite Hest. cbn [Kalman.estimates]. rewrite <- app_assoc.
      reflexivity.
    + cbn [app]. constructor; [|exact Hnew]. simpl add. rewrite HK. ring.
Qed.

(** X9.  With a measurement variance of zero, in exact arithmetic.  Ch-4 Ex-1
    from a positive initial variance trusts the first measurement fully
    (gain 1, estimate equal to the measurement, variance 0) and raises
    ZeroDivisionError at the second measurement, where it divides 0 by 0.
    Ch-5 with a positive process variance never raises: its gain is 1 at
    every step and it records the measurements as its estimates. *)
Theorem zero_measurement_variance (q r x0 p0 : Q) :
  r == 0 -> 0 < p0 -> 0 < q ->
  (forall z : Q,
      exists (s : Kalman.store) (K e v : Q),
        Ch4_Ex1.script r x0 p0 [z] = Ok s /\
        Kalman.kalman_gains s = [K] /\ K == 1 /\
        Kalman.estimates s = [e] /\ e == z /\
        Kalman.variances s = [v] /\ v == 0) /\
  (forall (z1 z2 : Q) (rest : list Q),
      Ch4_Ex1.script r x0 p0 (z1 :: z2 :: rest) = Raise ZeroDivisionError) /\
  (forall ms : list Q,
      exists s : Kalman.store,
        Ch5_Ex1.script q r x0 p0 ms = Ok s /\
        Forall2 Qeq (Kalman.estimates s) ms).
Proof.
  intros Hr Hp0 Hq.
  destruct (full_trust_step Hr Hp0) as [HK Hv].
  assert (Hne : ~ p0 + r == 0) by (rewrite Hr; lra).
  split; [|split].
  - intros z. unfold Ch4_Ex1.script, Ch4_Ex1.body. cbn [for_enumerate].
    unfold Kalman.iteration. cbn [Kalman.init Kalman.x_est Kalman.p_est].
    rewrite Exact_update by exact Hne. cbn [bind].
    do 4 eexists. split; [reflexivity|]. cbn.
    repeat split; try reflexivity; trivial.
    unfold Qdiv in HK. rewrite HK. ring.
  - intros z1 z2 rest. unfold Ch4_Ex1.script, Ch4_Ex1.body.
    cbn [for_enumerate]. unfold Kalman.iteration at 1.
    cbn [Kalman.init Kalman.x_est Kalman.p_est].
    rewrite Exact_update by exact Hne. cbn [bind].
    unfold Kalman.iteration at 1, Kalman.update, div.
    cbn [Kalman.x_est Kalman.p_est].
    replace (is_zero (add ((1 - p0 / (p0 + r)) * p0) r)) with true;
      [reflexivity|].
    symmetry. apply Qeq_bool_iff. simpl add. rewrite Hv, Hr. reflexivity.
  - intros ms.
    destruct (@copying_loop q r ms 1 (Kalman.init x0 p0) Hr Hq)
      as (s & new & Hrun & Hest & Hnew); [simpl; lra|].
    exists s. split; [exact Hrun|]. now rewrite Hest.
Qed.

Lemma zero_measurement_variance_witness :
  (0 == 0 /\ 0 < 225 /\ 0 < 0.15) /\
  Ch4_Ex1.script 0 60 225 [49.03; 48.44; 55.21] = Raise ZeroDivisionError.
Proof.
  assert (Hr : 0 == 0) by reflexivity.
  assert (Hp : 0 < 225) by reflexivity.
  assert (Hq : 0 < 0.15) by reflexivity.
  split; [repeat split; assumption|].
  exact (proj1 (proj2 (@zero_measurement_variance 0.15 0 60 225 Hr Hp Hq))
           49.03 48.44 [55.21]).
Defined.

(** ** X10: the variance the recursion settles at *)

(** X10.  Ch-5 in exact arithmetic, q >= 0, r > 0: an initial variance
    p0 >= 0 with p0^2 + q p0 = q r is a fixed point of the variance
    recursion.  Every step records the variance p0 again and the same gain
    (p0 + q) / (p0 + q + r). *)
Theorem steady_state_variance (q r x0 p0 : Q) (ms : list Q) :
  0 <= q -> 0 < r -> 0 <= p0 ->
  p0 * p0 + q * p0 == q * r ->
  exists s : Kalman.store,
    Ch5_Ex1.script q r x0 p0 ms = Ok s /\
    forall k, (k < length ms)%nat ->
      nth k (Kalman.variances s) 0 == p0 /\
      nth k (Kalman.kalman_gains s) 0 == (p0 + q) / (p0 + q + r).
Proof.
  intros Hq Hr Hp0 Hfix.
  destruct (@covariance_loop q r Hq Hr (fun p => p + q)
              (fun p => Qeq_refl _) x0 p0 ms Hp0) as (s & Hrun & Hinv).
  exists s. split; [exact Hrun|].
  assert (Hstay : (1 - (p0 + q) / (p0 + q + r)) * (p0 + q) == p0).
  { assert (E : p0 * (p0 + q + r) == r * (p0 + q)) by nra.
    transitivity (r * (p0 + q) / (p0 + q + r)); [field; lra|].
    rewrite <- E. field. lra. }
  assert (Hprev : forall k, (k <= length ms)%nat ->
            nth k (p0 :: Kalman.variances s) 0 == p0).
  { induction k as [|k IH]; intros Hk; [reflexivity|].
    destruct (ci_step Hinv (k := k) ltac:(lia)) as [_ HP].
    cbv zeta in HP. cbn [nth]. rewrite HP, (IH ltac:(lia)). exact Hstay. }
  intros k Hk. destruct (ci_step Hinv Hk) as [HK HP]. cbv zeta in HK, HP.
  rewrite HK, HP, (Hprev k ltac:(lia)). split; [exact Hstay | reflexivity].
Qed.

Lemma steady_state_variance_witness :
  (0 <= 1 /\ 0 < 2 /\ 0 <= 1 /\ 1 * 1 + 1 * 1 == 1 * 2) /\
  exists s : Kalman.store,
    Ch5_Ex1.script 1 2 10 1 [50.486; 50.963; 51.597] = Ok s /\
    forall k, (k < 3)%nat ->
      nth k (Kalman.variances s) 0 == 1 /\
      nth k (Kalman.kalman_gains s) 0 == (1 + 1) / (1 + 1 + 2).
Proof.
  assert (Hq : 0 <= 1) by (vm_compute; discriminate).
  assert (Hr : 0 < 2) by reflexivity.
  assert (Hp : 0 <= 1) by (vm_compute; discriminate).
  assert (Hf : 1 * 1 + 1 * 1 == 1 * 2) by reflexivity.
  split; [repeat split; assumption|].
  exact (@steady_state_variance 1 2 10 1 [50.486; 50.963; 51.597]
           Hq Hr Hp Hf).
Defined.

(** ** X11: a track that fits the constant velocity model *)

Section ConstantVelocityTrack.
Variables alpha beta delta_t x0 v0 : Q.
Hypothesis delta_t_nonzero : ~ delta_t == 0.

Let truth (n : nat) : Q := Ch3_Ex2_true_range x0 v0 delta_t n.

Lemma truth_succ (m : nat) : truth (S m) == truth m + delta_t * v0.
Proof.
  unfold truth, Ch3_Ex2_true_range.
  change (x0 + v0 * inject_Z (Z.of_nat (S m)) * delta_t
          == x0 + v0 * inject_Z (Z.of_nat m) * delta_t + delta_t * v0).
  rewrite inject_Z_succ. ring.
Qed.

Lemma constant_velocity_loop (count m idx : nat)
    (s : Ch3_Ex2.store (num := Q)) :
  Ch3_Ex2.x_est s == truth m ->
  Ch3_Ex2.vx_est s == v0 ->
  exists s' xs vs ps,
    for_enumerate (Ch3_Ex2.body alpha beta delta_t) idx
      (map truth (seq (S m) count)) s = Ok s' /\
    Ch3_Ex2.x_estimates s' = Ch3_Ex2.x_estimates s ++ xs /\
    Ch3_Ex2.vx_estimates s' = Ch3_Ex2.vx_estimates s ++ vs /\
    Ch3_Ex2.x_predictions s' = Ch3_Ex2.x_predictions s ++ ps /\
    Forall2 Qeq xs (map truth (seq (S m) count)) /\
    Forall2 Qeq ps (map truth (seq (S m) count)) /\
    Forall (fun v => v == v0) vs.
Proof.
  revert m idx s; induction count as [|count IH]; intros m idx s Hx Hv.
  - exists s, [], [], []. simpl. rewrite !app_nil_r. repeat split; constructor.
  - cbn [seq map for_enumerate].
    unfold Ch3_Ex2.body at 1, Ch3_Ex2.residual.
    rewrite Exact_div by exact delta_t_nonzero. cbn [bind].
    set (x_pred := add (Ch3_Ex2.x_est s) (mul delta_t (Ch3_Ex2.vx_est s))).
    assert (Hpred : x_pred == truth (S m)).
    { unfold x_pred. simpl add; simpl mul. rewrite truth_succ, Hx, Hv.
      reflexivity. }
    set (x_new := add x_pred (mul alpha (sub (truth (S m)) x_pred))).
    set (v_new := add (Ch3_Ex2.vx_est s)
                    (mul beta (sub (truth (S m)) x_pred) / delta_t)).
    assert (Hxn : x_new == truth (S m)).
    { unfold x_new. simpl add; simpl mul; simpl sub. rewrite Hpred. ring. }
    assert (Hvn : v_new == v0).
    { unfold v_new. simpl add; simpl mul; simpl sub. rewrite Hpred, Hv.
      field. exact delta_t_nonzero. }
    destruct (IH (S m) (S idx)
      {| Ch3_Ex2.x_est := x_new; Ch3_Ex2.vx_est := v_new;
         Ch3_Ex2.x_estimates := Ch3_Ex2.x_estimates s ++ [x_new];
         Ch3_Ex2.vx_estimates := Ch3_Ex2.vx_estimates s ++ [v_new];
         Ch3_Ex2.x_predictions := Ch3_Ex2.x_predictions s ++ [x_pred];
         Ch3_Ex2.vx_predictions :=
           Ch3_Ex2.vx_predictions s ++ [Ch3_Ex2.vx_est s] |} Hxn Hvn)
      as (s' & xs & vs & ps & Hrun & Hxs & Hvs & Hps & H1 & H2 & H3).
    exists s', (x_new :: xs), (v_new :: vs), (x_pred :: ps).
    cbn [Ch3_Ex2.x_estimates Ch3_Ex2.vx_estimates Ch3_Ex2.x_predictions]
      in Hxs, Hvs, Hps.
    rewrite <- app_assoc in Hxs, Hvs, Hps.
    repeat split; trivial; constructor; trivial.
Qed.
End ConstantVelocityTrack.

(** X11.  Ex-2 in exact arithmetic, with a time step that is not zero and
    any gains: started from the true initial range and velocity and fed
    Ex-2's own true ranges x0_true + v_true * n * delta_t as measurements,
    the loop predicts and estimates exactly those ranges and keeps the
    velocity estimate at the initial velocity.  (Ex-3 runs the same loop, but
    its own true ranges are not of this form once the aircraft accelerates;
    nothing is stated about them.) *)
Theorem constant_velocity_track_is_followed
    (alpha beta delta_t x0 v0 : Q) (count : nat) :
  ~ delta_t == 0 ->
  exists s : Ch3_Ex2.store,
    Ch3_Ex2.script alpha beta delta_t x0 v0
      (Ch3_Ex2_true_ranges x0 v0 delta_t count) = Ok s /\
    Forall2 Qeq (Ch3_Ex2.x_predictions s)
      (Ch3_Ex2_true_ranges x0 v0 delta_t count) /\
    Forall2 Qeq (Ch3_Ex2.x_estimates s)
      (Ch3_Ex2_true_ranges x0 v0 delta_t count) /\
    Forall (fun v => v == v0) (Ch3_Ex2.vx_estimates s).
Proof.
  intros Hdt.
  destruct (@constant_velocity_loop alpha beta delta_t x0 v0 Hdt count 0 1
              (Ch3_Ex2.init x0 v0))
    as (s & xs & vs & ps & Hrun & Hxs & Hvs & Hps & H1 & H2 & H3).
  - unfold Ch3_Ex2_true_range. simpl. ring.
  - reflexivity.
  - exists s. split; [exact Hrun|]. rewrite Hxs, Hvs, Hps. simpl.
    repeat split; assumption.
Qed.

Lemma constant_velocity_track_is_followed_witness :
  ~ 5 == 0 /\
  exists s : Ch3_Ex2.store,
    Ch3_Ex2.script 0.2 0.1 5 30000 40
      (Ch3_Ex2_true_ranges 30000 40 5 3) = Ok s /\
    Forall2 Qeq (Ch3_Ex2.x_predictions s)
      (Ch3_Ex2_true_ranges 30000 40 5 3) /\
    Forall2 Qeq (Ch3_Ex2.x_estimates s)
      (Ch3_Ex2_true_ranges 30000 40 5 3) /\
    Forall (fun v => v == 40) (Ch3_Ex2.vx_estimates s).
Proof.
  assert (Hdt : ~ 5 == 0) by (vm_compute; discriminate).
  split; [exact Hdt|].
  exact (@constant_velocity_track_is_followed 0.2 0.1 5 30000 40 3 Hdt).
Defined.

(** ** X12: a track that fits the constant acceleration model *)

Section ConstantAccelerationTrack.
Variables alpha beta gamma delta_t x0 v0 a0 : Q.
Hypothesis delta_t_nonzero : ~ delta_t == 0.





End ConstantAccelerationTrack.



(** ** X13: the running mean stays among the measurements *)





(** ** X14: a time step whose square vanishes *)

(** X14.  Ex-4 divides the residual twice, by delta_t and by
    0.5 * delta_t ** 2.  When the time step is not zero but half its square
    is, as happens in binary64 when the square underflows, the first
    iteration passes the velocity correction and raises ZeroDivisionError at
    the acceleration correction.  Any arithmetic. *)
Theorem vanishing_half_square_raises
    (num : Type) (A : Arith num)
    (alpha beta gamma delta_t x0 v0 a0 z : num) (rest : list num) :
  is_zero delta_t = false ->
  is_zero (mul half (pow2 delta_t)) = true ->
  Ch3_Ex4.script alpha beta gamma delta_t x0 v0 a0 (z :: rest)
    = Raise ZeroDivisionError.
Proof.
  intros H1 H2. unfold Ch3_Ex4.script. cbn [for_enumerate].
  unfold Ch3_Ex4.body, Ch3_Ex4.predict, div. cbn [bind].
  rewrite H1. cbn [bind]. rewrite H2. reflexivity.
Qed.

Lemma vanishing_half_square_raises_witness :
  (is_zero 1e-200%float = false /\
   is_zero (mul half (pow2 1e-200%float)) = true) /\
  Ch3_Ex4.script 0.5%float 0.4%float 0.1%float 1e-200%float
    30000%float 50%float 0%float [30221; 30453]%float
    = Raise ZeroDivisionError.
Proof.
  assert (H1 : is_zero 1e-200%float = false) by reflexivity.
  assert (H2 : is_zero (mul half (pow2 1e-200%float)) = true)
    by reflexivity.
  split; [split; assumption|].
  exact (@vanishing_half_square_raises float Binary64
           0.5%float 0.4%float 0.1%float 1e-200%float
           30000%float 50%float 0%float 30221%float [30453%float] H1 H2).
Defined.

(** ** C8: the trajectory is determined by the inputs of the run *)

Section Frame.
Context {num store state : Type}.
Variable body : nat -> num -> store -> result store.
Variable state_of : store -> state.
Variable fresh : state -> store.
Variable resumed : store -> store -> store.

Hypothesis body_frame : forall n z s,
  body n z s =
  let* d := body n z (fresh (state_of s)) in Ok (resumed s d).
Hypothesis resumed_assoc : forall s d d',
  resumed (resumed s d) d' = resumed s (resumed d d').
Hypothesis state_of_resumed : forall s d,
  state_of (resumed s d) = state_of d.
Hypothesis resumed_fresh : forall s, resumed s (fresh (state_of s)) = s.

End Frame.

Section Frames.
Context {num : Type} {A : Arith num}.



End Frames.


